(** * Request signing of the Kraken balance script

    A shallow embedding of [src/kraken-test-py/kraken-test.py]: the
    functions [request], [get_nonce], [get_signature] and [sign], together
    with the library functions they call ([hashlib.sha256],
    [hashlib.sha512], [hmac.new(...).digest()], [base64.b64encode],
    [base64.b64decode], [str.encode], [json.dumps], [str]).

    Layout: byte strings and machine words; the SHA-2 family (FIPS 180-4);
    HMAC (RFC 2104); base64 (RFC 4648 and CPython's lenient decoder);
    Python values, dictionaries and [json.dumps]; the world the script runs
    in (clock, heap of dictionaries, standard output) with its monad; the
    four functions of the script; the theorems. *)

From Stdlib Require Import ZArith List String Ascii Bool Lia QArith Qround.
From Stdlib Require Import DecimalString DecimalZ DecimalPos.
From Stdlib.Strings Require Import Byte.
Import ListNotations.

Open Scope Z_scope.

(** ** Byte strings *)

(** A Python [bytes] object. *)
Definition bytes := list byte.

Definition Z_of_byte (b : byte) : Z := Z.of_N (Byte.to_N b).

(** The byte with the low eight bits of [z]. *)
Definition byte_of_Z (z : Z) : byte :=
  match Byte.of_N (Z.to_N (z mod 256)) with
  | Some b => b
  | None => x00
  end.

(** Big-endian reading of a byte string as a number. *)
Definition be_to_Z (bs : bytes) : Z :=
  fold_left (fun acc b => acc * 256 + Z_of_byte b) bs 0.

(** Big-endian writing of [z] on exactly [n] bytes (high bits dropped). *)
Fixpoint be_bytes (n : nat) (z : Z) : bytes :=
  match n with
  | O => []
  | S k => byte_of_Z (Z.shiftr z (8 * Z.of_nat k)) :: be_bytes k z
  end.

(** [blocks n k l]: the first [k] consecutive pieces of [n] items of [l]. *)
Fixpoint blocks {A} (n k : nat) (l : list A) : list (list A) :=
  match k with
  | O => []
  | S k' => firstn n l :: blocks n k' (skipn n l)
  end.

Definition hex_digit (z : Z) : ascii :=
  ascii_of_N (Z.to_N (if z <? 10 then 48 + z else 87 + z)).

(** [bytes.hex()]: two lowercase hexadecimal digits per byte. *)
Fixpoint hex (bs : bytes) : string :=
  match bs with
  | [] => EmptyString
  | b :: r =>
      String (hex_digit (Z_of_byte b / 16))
        (String (hex_digit (Z_of_byte b mod 16)) (hex r))
  end.

(** ** The SHA-2 family (FIPS 180-4) *)

Module SHA2.

(** Largest [r] below [2^bits] with [r^e <= n], a bit at a time from the top. *)
Fixpoint iroot (e : Z) (n : Z) (bits : nat) (r : Z) : Z :=
  match bits with
  | O => r
  | S b =>
      let c := r + 2 ^ Z.of_nat b in
      iroot e n b (if c ^ e <=? n then c else r)
  end.

Definition is_prime (p : Z) : bool :=
  forallb (fun d => negb (p mod d =? 0))
          (map Z.of_nat (seq 2 (Z.to_nat p - 2))).

(** The first [n] primes, searched among [2 .. 2 + bound). *)
Definition first_primes (n bound : nat) : list Z :=
  firstn n (filter is_prime (map Z.of_nat (seq 2 bound))).

(** The first [w] bits of the fractional part of the [e]-th root of [p]. *)
Definition frac_root (e w p : Z) : Z :=
  iroot e (p * 2 ^ (e * w)) (Z.to_nat w + 8) 0 mod 2 ^ w.

(** The eight working registers, and the hash value between blocks. *)
Record regs : Type := Regs {
  ra : Z; rb : Z; rc : Z; rd : Z; re : Z; rf : Z; rg : Z; rh : Z
}.

Definition regs_of_list (l : list Z) : regs :=
  Regs (nth 0 l 0) (nth 1 l 0) (nth 2 l 0) (nth 3 l 0)
       (nth 4 l 0) (nth 5 l 0) (nth 6 l 0) (nth 7 l 0).

Section Generic.

(** Word size in bits, number of rounds, and the rotation and shift
    amounts of the four sigma functions (sections 4.1.2 and 4.1.3). *)
Variable w : Z.
Variable rounds : nat.
Variables S0a S0b S0c S1a S1b S1c : Z.
Variables s0a s0b s0c s1a s1b s1c : Z.

Definition wbytes : nat := Z.to_nat (w / 8).
Definition block_bytes : nat := (16 * wbytes)%nat.

Definition wadd (x y : Z) : Z := (x + y) mod 2 ^ w.
Definition rotr (n x : Z) : Z :=
  Z.lor (Z.shiftr x n) (Z.shiftl x (w - n) mod 2 ^ w).
Definition shr (n x : Z) : Z := Z.shiftr x n.
Definition wnot (x : Z) : Z := 2 ^ w - 1 - x.

Definition Ch (x y z : Z) : Z :=
  Z.lxor (Z.land x y) (Z.land (wnot x) z).
Definition Maj (x y z : Z) : Z :=
  Z.lxor (Z.lxor (Z.land x y) (Z.land x z)) (Z.land y z).
Definition Sigma0 (x : Z) := Z.lxor (Z.lxor (rotr S0a x) (rotr S0b x)) (rotr S0c x).
Definition Sigma1 (x : Z) := Z.lxor (Z.lxor (rotr S1a x) (rotr S1b x)) (rotr S1c x).
Definition sigma0 (x : Z) := Z.lxor (Z.lxor (rotr s0a x) (rotr s0b x)) (shr s0c x).
Definition sigma1 (x : Z) := Z.lxor (Z.lxor (rotr s1a x) (rotr s1b x)) (shr s1c x).

(** Section 4.2: cube roots of the first primes; section 5.3: square
    roots of the first eight. *)
Definition round_constants : list Z :=
  map (frac_root 3 w) (first_primes rounds 512).
Definition initial_hash : regs :=
  regs_of_list (map (frac_root 2 w) (first_primes 8 32)).

(** Section 5.1: a one bit, zero bits up to two words short of a block
    boundary, then the bit length of the message on two words. *)
Definition pad (m : bytes) : bytes :=
  let len := Z.of_nat (List.length m) in
  let blk := Z.of_nat block_bytes in
  let lenfield := 2 * Z.of_nat wbytes in
  let zeros := (blk - lenfield - (len + 1)) mod blk in
  m ++ [x80] ++ repeat x00 (Z.to_nat zeros)
    ++ be_bytes (2 * wbytes) (8 * len).

(** Section 6.2.2, step 1. The schedule is kept newest word first. *)
Fixpoint extend (n : nat) (ws : list Z) : list Z :=
  match n with
  | O => ws
  | S k =>
      let x := wadd (wadd (sigma1 (nth 1 ws 0)) (nth 6 ws 0))
                    (wadd (sigma0 (nth 14 ws 0)) (nth 15 ws 0)) in
      extend k (x :: ws)
  end.

Definition schedule (block : bytes) : list Z :=
  let w16 := map be_to_Z (blocks wbytes 16 block) in
  rev (extend (rounds - 16) (rev w16)).

(** Section 6.2.2, step 3. *)
Definition round (r : regs) (kw : Z * Z) : regs :=
  let t1 := wadd (wadd (wadd (rh r) (Sigma1 (re r)))
                       (wadd (Ch (re r) (rf r) (rg r)) (fst kw)))
                 (snd kw) in
  let t2 := wadd (Sigma0 (ra r)) (Maj (ra r) (rb r) (rc r)) in
  Regs (wadd t1 t2) (ra r) (rb r) (rc r) (wadd (rd r) t1) (re r) (rf r) (rg r).

(** Section 6.2.2, steps 2 and 4. *)
Definition compress (K : list Z) (h : regs) (block : bytes) : regs :=
  let r := fold_left round (combine K (schedule block)) h in
  Regs (wadd (ra h) (ra r)) (wadd (rb h) (rb r))
       (wadd (rc h) (rc r)) (wadd (rd h) (rd r))
       (wadd (re h) (re r)) (wadd (rf h) (rf r))
       (wadd (rg h) (rg r)) (wadd (rh h) (rh r)).

Definition output (h : regs) : bytes :=
  be_bytes wbytes (ra h) ++ be_bytes wbytes (rb h) ++
  be_bytes wbytes (rc h) ++ be_bytes wbytes (rd h) ++
  be_bytes wbytes (re h) ++ be_bytes wbytes (rf h) ++
  be_bytes wbytes (rg h) ++ be_bytes wbytes (rh h).

Definition hash (K : list Z) (H0 : regs) (m : bytes) : bytes :=
  let p := pad m in
  output (fold_left (compress K) (blocks block_bytes (List.length p / block_bytes) p) H0).

End Generic.

End SHA2.

(** The constants of SHA-256 (32-bit words, 64 rounds) and of SHA-512
    (64-bit words, 80 rounds). *)
Definition K256 : list Z := Eval vm_compute in SHA2.round_constants 32 64.
Definition H256 : SHA2.regs := Eval vm_compute in SHA2.initial_hash 32.
Definition K512 : list Z := Eval vm_compute in SHA2.round_constants 64 80.
Definition H512 : SHA2.regs := Eval vm_compute in SHA2.initial_hash 64.

(** [hashlib.sha256(m).digest()] *)
Definition sha256 (m : bytes) : bytes :=
  SHA2.hash 32 64 2 13 22 6 11 25 7 18 3 17 19 10 K256 H256 m.

(** [hashlib.sha512(m).digest()] *)
Definition sha512 (m : bytes) : bytes :=
  SHA2.hash 64 80 28 34 39 14 18 41 1 8 7 19 61 6 K512 H512 m.

(** ** HMAC (RFC 2104), as [hmac.new(key, msg, digestmod).digest()] *)

Definition xor_byte (c : Z) (b : byte) : byte :=
  byte_of_Z (Z.lxor (Z_of_byte b) c).

Section HMAC.

(** The hash function and its block size in bytes. *)
Variable H : bytes -> bytes.
Variable block_size : nat.

(** Keys longer than a block are hashed; the key is then padded with
    zero bytes to a full block. *)
Definition hmac_key_block (key : bytes) : bytes :=
  let k := if (block_size <? List.length key)%nat then H key else key in
  k ++ repeat x00 (block_size - List.length k).

Definition hmac_digest (key msg : bytes) : bytes :=
  let k := hmac_key_block key in
  let inner := H (map (xor_byte 54) k ++ msg) in
  H (map (xor_byte 92) k ++ inner).

End HMAC.

(** [hmac.new(key=key, msg=msg, digestmod=hashlib.sha512).digest()];
    SHA-512 works on blocks of 128 bytes. *)
Definition hmac_sha512 (key msg : bytes) : bytes :=
  hmac_digest sha512 128 key msg.

(** ** Python exceptions and results *)

Inductive exn : Type :=
| TypeError        (* unsupported operand types *)
| ValueError       (* non-ASCII text given to [base64.b64decode] *)
| BinasciiError.   (* [binascii.Error], raised by the base64 decoder *)

Definition result (A : Type) : Type := (exn + A)%type.

(** ** Strings

    A Python [str] is modelled by a Rocq [string]: the character numbered
    [n] stands for the code point [n], so that the model covers the
    strings over the code points U+0000 to U+00FF. *)

Definition code (c : ascii) : Z := Z.of_N (N_of_ascii c).
Definition chr (z : Z) : ascii := ascii_of_N (Z.to_N z).

(** [s.encode()]: UTF-8. Code points up to U+007F take one byte, those up
    to U+00FF two. *)
Definition encode_char (c : ascii) : bytes :=
  if code c <? 128 then [byte_of_ascii c]
  else [byte_of_Z (Z.lor 192 (Z.shiftr (code c) 6));
        byte_of_Z (Z.lor 128 (Z.land (code c) 63))].

Definition encode (s : string) : bytes :=
  flat_map encode_char (list_ascii_of_string s).

(** [bs.decode()] on ASCII bytes, the only ones the script decodes. *)
Definition decode (bs : bytes) : string :=
  string_of_list_ascii (map ascii_of_byte bs).

(** [s.encode('ascii')], as [base64.b64decode] applies it to a [str]. *)
Definition encode_ascii (s : string) : result bytes :=
  if forallb (fun c => code c <? 128) (list_ascii_of_string s)
  then inr (map byte_of_ascii (list_ascii_of_string s))
  else inl ValueError.

(** ** Base64 *)

Definition b64char (i : Z) : byte :=
  byte_of_Z (if i <? 26 then 65 + i
             else if i <? 52 then 97 + (i - 26)
             else if i <? 62 then 48 + (i - 52)
             else if i =? 62 then 43 else 47).

(** [base64.b64encode]: three bytes give four characters; a last group
    of one or two bytes is padded with [=]. *)
Fixpoint b64encode (bs : bytes) : bytes :=
  match bs with
  | [] => []
  | [a] =>
      let x := Z_of_byte a in
      [b64char (Z.shiftr x 2); b64char (Z.shiftl (Z.land x 3) 4);
       byte_of_Z 61; byte_of_Z 61]
  | [a; b] =>
      let x := Z_of_byte a in
      let y := Z_of_byte b in
      [b64char (Z.shiftr x 2);
       b64char (Z.lor (Z.shiftl (Z.land x 3) 4) (Z.shiftr y 4));
       b64char (Z.shiftl (Z.land y 15) 2); byte_of_Z 61]
  | a :: b :: c :: r =>
      let x := Z_of_byte a in
      let y := Z_of_byte b in
      let z := Z_of_byte c in
      b64char (Z.shiftr x 2)
      :: b64char (Z.lor (Z.shiftl (Z.land x 3) 4) (Z.shiftr y 4))
      :: b64char (Z.lor (Z.shiftl (Z.land y 15) 2) (Z.shiftr z 6))
      :: b64char (Z.land z 63)
      :: b64encode r
  end.

(** The value of a character of the base64 alphabet. *)
Definition b64value (b : byte) : option Z :=
  let c := Z_of_byte b in
  if (65 <=? c) && (c <=? 90) then Some (c - 65)
  else if (97 <=? c) && (c <=? 122) then Some (c - 97 + 26)
  else if (48 <=? c) && (c <=? 57) then Some (c - 48 + 52)
  else if c =? 43 then Some 62
  else if c =? 47 then Some 63
  else None.

Definition is_pad (b : byte) : bool := Z_of_byte b =? 61.

(** [binascii.a2b_base64] in its default, non-strict mode (CPython 3.10
    to 3.13). [quad_pos] counts the alphabet characters of the current
    group of four, [leftchar] holds the bits not yet written, [pads] the
    [=] seen since the last alphabet character; [out] is the output so
    far, last byte first. Characters outside the alphabet are skipped;
    an [=] that completes a group ends the decoding; input that ends
    inside a group is an error. *)
Fixpoint a2b_loop (cs : bytes) (quad_pos : nat) (leftchar : Z) (pads : nat)
                  (out : bytes) : result bytes :=
  match cs with
  | [] => if (quad_pos =? 0)%nat then inr (rev out) else inl BinasciiError
  | c :: r =>
      if is_pad c then
        if (2 <=? quad_pos)%nat then
          if (4 <=? quad_pos + (pads + 1))%nat then inr (rev out)
          else a2b_loop r quad_pos leftchar (pads + 1) out
        else a2b_loop r quad_pos leftchar pads out
      else
        match b64value c with
        | None => a2b_loop r quad_pos leftchar pads out
        | Some v =>
            match quad_pos with
            | 0%nat => a2b_loop r 1 v 0 out
            | 1%nat =>
                a2b_loop r 2 (Z.land v 15) 0
                  (byte_of_Z (Z.lor (Z.shiftl leftchar 2) (Z.shiftr v 4)) :: out)
            | 2%nat =>
                a2b_loop r 3 (Z.land v 3) 0
                  (byte_of_Z (Z.lor (Z.shiftl leftchar 4) (Z.shiftr v 2)) :: out)
            | _ =>
                a2b_loop r 0 0 0
                  (byte_of_Z (Z.lor (Z.shiftl leftchar 6) v) :: out)
            end
        end
  end.

Definition a2b_base64 (data : bytes) : result bytes := a2b_loop data 0 0 0 [].

(** [base64.b64decode(s)] for a [str] argument: the text must be ASCII,
    and is then decoded leniently ([validate=False]). *)
Definition b64decode (s : string) : result bytes :=
  match encode_ascii s with
  | inl e => inl e
  | inr data => a2b_base64 data
  end.

Open Scope string_scope.
Open Scope Z_scope.

(** ** Python values and dictionaries *)

(** The values a caller puts in a query or a body: [None], booleans,
    integers and strings (floats and nested containers are left out). *)
Inductive value : Type :=
| VNone
| VBool (b : bool)
| VInt (z : Z)
| VStr (s : string).

(** A [dict] with string keys, in insertion order. *)
Definition dict (V : Type) : Type := list (string * V).

(** [d.get(k)], with [None] for a missing key. *)
Fixpoint dict_lookup {V} (d : dict V) (k : string) : option V :=
  match d with
  | [] => None
  | (k', v) :: r => if String.eqb k' k then Some v else dict_lookup r k
  end.

Definition dict_get (d : dict value) (k : string) : value :=
  match dict_lookup d k with
  | Some v => v
  | None => VNone
  end.

(** [d[k] = v]: an existing key keeps its place, a new one goes last. *)
Fixpoint dict_set {V} (d : dict V) (k : string) (v : V) : dict V :=
  match d with
  | [] => [(k, v)]
  | (k', v') :: r =>
      if String.eqb k' k then (k', v) :: r else (k', v') :: dict_set r k v
  end.

Definition len {A} (l : list A) : Z := Z.of_nat (List.length l).
Definition str_len (s : string) : Z := Z.of_nat (String.length s).

(** [str(n)] for an [int]. *)
Definition str_of_int (z : Z) : string :=
  NilZero.string_of_int (Z.to_int z).


(** [str(v)] *)
Definition str_of_value (v : value) : string :=
  match v with
  | VNone => "None"
  | VBool true => "True"
  | VBool false => "False"
  | VInt z => str_of_int z
  | VStr s => s
  end.

(** ** [json.dumps] with its default options *)

(** The double quote, as a string of one character. *)
Definition dquote : string := String (chr 34) EmptyString.

(** One character inside a JSON string ([ensure_ascii=True]): printable
    ASCII is kept, the quote and the backslash are escaped, and
    everything else is written as an escape sequence. *)
Definition json_escape_char (c : ascii) : string :=
  let n := code c in
  if n =? 34 then "\" ++ dquote
  else if n =? 92 then "\\"
  else if n =? 10 then "\n"
  else if n =? 13 then "\r"
  else if n =? 9 then "\t"
  else if n =? 8 then "\b"
  else if n =? 12 then "\f"
  else if (32 <=? n) && (n <=? 126) then String c EmptyString
  else "\u00" ++ String (hex_digit (n / 16))
                   (String (hex_digit (n mod 16)) EmptyString).

Definition json_string (s : string) : string :=
  dquote
  ++ concat EmptyString (map json_escape_char (list_ascii_of_string s))
  ++ dquote.

Definition json_value (v : value) : string :=
  match v with
  | VNone => "null"
  | VBool true => "true"
  | VBool false => "false"
  | VInt z => str_of_int z
  | VStr s => json_string s
  end.

Definition json_item (kv : string * value) : string :=
  json_string (fst kv) ++ ": " ++ json_value (snd kv).

Definition json_dumps (d : dict value) : string :=
  "{" ++ concat ", " (map json_item d) ++ "}".

(** ** [urllib.parse.urlencode] with its default options *)

Definition upper_hex_digit (z : Z) : ascii :=
  chr (if z <? 10 then 48 + z else 55 + z).

(** Letters, digits and [_.-~] are never quoted. *)
Definition always_safe (n : Z) : bool :=
  ((65 <=? n) && (n <=? 90)) || ((97 <=? n) && (n <=? 122))
  || ((48 <=? n) && (n <=? 57))
  || (n =? 95) || (n =? 46) || (n =? 45) || (n =? 126).

(** [quote_plus] on one byte of the UTF-8 encoding. *)
Definition quote_byte (b : byte) : string :=
  let n := Z_of_byte b in
  if always_safe n then String (ascii_of_byte b) EmptyString
  else if n =? 32 then "+"
  else String "%" (String (upper_hex_digit (n / 16))
                  (String (upper_hex_digit (n mod 16)) EmptyString)).

Definition quote_plus (s : string) : string :=
  concat EmptyString (map quote_byte (encode s)).

Definition urlencode (query : dict value) : string :=
  concat "&" (map (fun kv => quote_plus (fst kv) ++ "=" ++
                              quote_plus (str_of_value (snd kv))) query).

(** ** The world the script runs in *)

(** A reference to a dictionary object. *)
Definition ref : Type := nat.

(** What a DEBUG line shows; the layout of the text is left out. *)
Inductive line : Type :=
| DebugGetSignature (key_prefix data : string) (nonce : value) (path : string)
| DebugGetSignatureResult (result : string)
| DebugRequest (nonce : value) (body_str query_str : string)
| DebugSignature (api_sign : option string).

(** The clock gives the successive readings of [time.time()], in seconds
    (floating-point numbers are idealised as rationals); [ticks] counts
    the readings taken so far. The heap holds the dictionary objects;
    references from [next_ref] on are unused. *)
Record world : Type := World {
  clock : nat -> Q;
  ticks : nat;
  heap : ref -> dict value;
  next_ref : ref;
  stdout : list line
}.

(** Computations that read and change the world and may raise. A raised
    exception keeps the changes made before it. *)
Definition M (A : Type) : Type := world -> result A * world.

Definition ret {A} (a : A) : M A := fun w => (inr a, w).

Definition bind {A B} (m : M A) (k : A -> M B) : M B :=
  fun w =>
    match m w with
    | (inl e, w') => (inl e, w')
    | (inr a, w') => k a w'
    end.

Definition lift {A} (r : result A) : M A := fun w => (r, w).

Notation "x <- m ;; k" := (bind m (fun x => k))
  (at level 61, m at next level, right associativity).
Notation "' p <- m ;; k" := (bind m (fun x => let 'p := x in k))
  (at level 61, p pattern, m at next level, right associativity).
Notation "m ;; k" := (bind m (fun _ => k))
  (at level 61, right associativity).

(** [time.time()] *)
Definition time_time : M Q :=
  fun w => (inr (clock w (ticks w)),
            World (clock w) (S (ticks w)) (heap w) (next_ref w) (stdout w)).

(** [print(...)] *)
Definition print (l : line) : M unit :=
  fun w => (inr tt,
            World (clock w) (ticks w) (heap w) (next_ref w)
                  (stdout w ++ [l])%list).

(** Reading the dictionary behind a reference. *)
Definition load (r : ref) : M (dict value) := fun w => (inr (heap w r), w).

Definition update (h : ref -> dict value) (r : ref) (d : dict value)
  : ref -> dict value :=
  fun r' => if Nat.eqb r' r then d else h r'.

(** [d[k] = v] on the object behind [r]. *)
Definition setitem (r : ref) (k : string) (v : value) : M unit :=
  fun w => (inr tt,
            World (clock w) (ticks w)
                  (update (heap w) r (dict_set (heap w r) k v))
                  (next_ref w) (stdout w)).

(** [{}]: a new, empty dictionary object. *)
Definition new_dict : M ref :=
  fun w => (inr (next_ref w),
            World (clock w) (ticks w) (update (heap w) (next_ref w) [])
                  (S (next_ref w)) (stdout w)).

(** [int(x)] for a [float]: truncation towards zero. *)
Definition int_of_float (x : Q) : Z :=
  if Qle_bool 0 x then Qfloor x else Qceiling x.

(** [v + s] for a [str] [s]: concatenation when [v] is a [str] too. *)
Definition add_str (v : value) (s : string) : result string :=
  match v with
  | VStr n => inr (n ++ s)
  | _ => inl TypeError
  end.

(** ** The script *)

(** What [request] gives to [urllib.request.Request]; the model stops
    where the transport begins. *)
Record Request : Type := mkRequest {
  req_method : string;
  req_url : string;
  req_data : bytes;
  req_headers : dict string
}.

(** Lines 92 to 99. *)
Definition sign (private_key : string) (message : bytes) : M string :=
  key <- lift (b64decode private_key) ;;
  ret (decode (b64encode (hmac_sha512 key message))).

(** Lines 80 to 89. *)
Definition get_signature (private_key data : string) (nonce : value)
                         (path : string) : M string :=
  print (DebugGetSignature (substring 0 10 private_key) data nonce path) ;;
  nonce_data <- lift (add_str nonce data) ;;
  result <- sign private_key
            (encode path ++ sha256 (encode nonce_data))%list ;;
  print (DebugGetSignatureResult result) ;;
  ret result.

(** Lines 76 and 77. *)
Definition get_nonce : M string :=
  t <- time_time ;;
  ret (str_of_int (int_of_float (t * 1000)%Q)).

(** Lines 30 to 73. [query] and [body] are references to the caller's
    dictionaries, or [None]. *)
Definition request (method path : string) (query body : option ref)
                   (public_key private_key environment : string)
  : M Request :=
  let url := environment ++ path in
  '(query_str, url) <-
    match query with
    | Some q =>
        d <- load q ;;
        if 0 <? len d
        then ret (urlencode d, url ++ "?" ++ urlencode d)
        else ret (EmptyString, url)
    | None => ret (EmptyString, url)
    end ;;
  '(nonce, body) <-
    (if 0 <? str_len public_key then
       body <- match body with
               | None => new_dict
               | Some b => ret b
               end ;;
       d <- load body ;;
       match dict_get d "nonce" with
       | VNone =>
           nonce <- get_nonce ;;
           setitem body "nonce" (VStr nonce) ;;
           ret (VStr nonce, Some body)
       | nonce => ret (nonce, Some body)
       end
     else ret (VStr EmptyString, body)) ;;
  '(body_str, headers) <-
    match body with
    | Some b =>
        d <- load b ;;
        if 0 <? len d
        then ret (json_dumps d,
                  dict_set [] "Content-Type" "application/json")
        else ret (EmptyString, [])
    | None => ret (EmptyString, [])
    end ;;
  headers <-
    (if 0 <? str_len public_key then
       let headers := dict_set headers "API-Key" public_key in
       signature <- get_signature private_key (query_str ++ body_str)
                                  nonce path ;;
       ret (dict_set headers "API-Sign" signature)
     else ret headers) ;;
  print (DebugRequest nonce body_str query_str) ;;
  print (DebugSignature (dict_lookup headers "API-Sign")) ;;
  ret (mkRequest method url (encode body_str) headers).

(** The private key [main] passes. *)
Definition main_private_key : string :=
  "bZI23Z8QfS1PhQjm/hynRtZmCVv+IaITiU8f9pBwKOlcy1w14jDRkdOs9pe4wlYpPRXKHyVxCZX3z1wHrG2zOw==".

(** The call [main] makes. *)
Definition main_request : M Request :=
  request "POST" "/0/private/Balance" None None
    "9UA5+IEHP68a8i7pwRRiahubuj14J/LIfs05vhupHyFbT7GWyFs9gXr1"
    main_private_key "https://api.kraken.com".

(** ** Notions used in the statements *)

(** Strict base64 (RFC 4648, section 4): groups of four characters of the
    alphabet, the last group possibly ending in one or two [=]. *)
Definition b64_alpha (c : ascii) : bool :=
  match b64value (byte_of_ascii c) with
  | Some _ => true
  | None => false
  end.

Definition b64_pad (c : ascii) : bool := is_pad (byte_of_ascii c).

Fixpoint valid_quads (cs : list ascii) : bool :=
  match cs with
  | [] => true
  | [a; b; c; d] =>
      b64_alpha a && b64_alpha b &&
      ((b64_alpha c && (b64_alpha d || b64_pad d)) || (b64_pad c && b64_pad d))
  | a :: b :: c :: d :: r =>
      b64_alpha a && b64_alpha b && b64_alpha c && b64_alpha d && valid_quads r
  | _ => false
  end.

Definition valid_base64 (s : string) : bool :=
  valid_quads (list_ascii_of_string s).

(** The query string [request] computes at line 42, read in world [w]. *)
Definition query_string (query : option ref) (w : world) : string :=
  match query with
  | Some q => if 0 <? len (heap w q) then urlencode (heap w q) else EmptyString
  | None => EmptyString
  end.

(** The URL [request] computes at lines 39 to 43. *)
Definition request_url (environment path : string) (query : option ref)
                       (w : world) : string :=
  match query with
  | Some q =>
      if 0 <? len (heap w q)
      then (environment ++ path) ++ "?" ++ urlencode (heap w q)
      else environment ++ path
  | None => environment ++ path
  end.

(** The object [body] names once line 47 has run, and what it holds on
    entry: the caller's dictionary, or the new empty one. *)
Definition body_ref (body : option ref) (w : world) : ref :=
  match body with
  | Some b => b
  | None => next_ref w
  end.

Definition body_on_entry (body : option ref) (w : world) : dict value :=
  match body with
  | Some b => heap w b
  | None => []
  end.

(** The world once line 47 has run. *)
Definition enter_body (body : option ref) (w : world) : world :=
  match body with
  | Some _ => w
  | None => snd (new_dict w)
  end.

(** World [w] with more lines on its standard output. *)
Definition say (w : world) (ls : list line) : world :=
  World (clock w) (ticks w) (heap w) (next_ref w) (stdout w ++ ls)%list.

(** The message [get_signature] builds at line 86 from a [str] nonce. *)
Definition signing_message (path nonce data : string) : bytes :=
  (encode path ++ sha256 (encode (nonce ++ data)))%list.

(** What [sign] returns or raises. *)
Definition sign_result (private_key : string) (message : bytes)
  : result string :=
  match b64decode private_key with
  | inl e => inl e
  | inr key => inr (decode (b64encode (hmac_sha512 key message)))
  end.

(** The body string of lines 53 to 55 for the dictionary behind [body]. *)
Definition body_string (body : option ref) (w : world) : string :=
  match body with
  | Some b => if 0 <? len (heap w b) then json_dumps (heap w b) else EmptyString
  | None => EmptyString
  end.

Definition body_present (body : option ref) (w : world) : bool :=
  match body with
  | Some b => 0 <? len (heap w b)
  | None => false
  end.

Definition is_str (v : value) : bool :=
  match v with
  | VStr _ => true
  | _ => false
  end.

(** The headers of a request: [Content-Type] when there is a body, then
    the two authentication headers when there is a signature. *)
Definition content_type_header (present : bool) : dict string :=
  if present then [("Content-Type", "application/json")] else [].

Definition signed_headers (public_key signature : string) : dict string :=
  [("Content-Type", "application/json"); ("API-Key", public_key);
   ("API-Sign", signature)].

(** The world after lines 45 to 51 of an authenticated request, and the
    nonce these lines leave in the variable [nonce]. *)
Definition nonce_world (body : option ref) (w : world) : world :=
  let w1 := enter_body body w in
  match dict_get (body_on_entry body w) "nonce" with
  | VNone =>
      World (clock w1) (S (ticks w1))
            (update (heap w1) (body_ref body w)
                    (dict_set (body_on_entry body w) "nonce"
                              (VStr (str_of_int
                                 (int_of_float (clock w (ticks w) * 1000)%Q)))))
            (next_ref w1) (stdout w1)
  | _ => w1
  end.

Definition nonce_used (body : option ref) (w : world) : value :=
  match dict_get (body_on_entry body w) "nonce" with
  | VNone => VStr (str_of_int (int_of_float (clock w (ticks w) * 1000)%Q))
  | v => v
  end.

(** The nonce [get_nonce] returns in world [w]. *)
Definition next_nonce (w : world) : string :=
  str_of_int (int_of_float (clock w (ticks w) * 1000)%Q).

(** Whether a run of [request] got as far as the transport, and the
    [API-Sign] header it then carried. *)
Definition reaches_transport (r : result Request) : bool :=
  match r with
  | inr _ => true
  | inl _ => false
  end.

Definition api_sign (r : result Request) : option string :=
  match r with
  | inr req => dict_lookup (req_headers req) "API-Sign"
  | inl _ => None
  end.

(** The bytes [base64.b64decode] gives for a key it accepts. *)
Definition decoded_key (private_key : string) : bytes :=
  match b64decode private_key with
  | inr key => key
  | inl _ => []
  end.

(** A world with an empty heap whose clock starts at [t] and advances by
    [step] seconds a reading. *)
Definition sample_world (t step : Q) : world :=
  World (fun n => t + inject_Z (Z.of_nat n) * step)%Q 0%nat (fun _ => []) 0%nat [].

(** The same with one dictionary [d], at reference 0. *)
Definition world_with (d : dict value) (t step : Q) : world :=
  World (fun n => t + inject_Z (Z.of_nat n) * step)%Q 0%nat
        (update (fun _ => []) 0%nat d) 1%nat [].


(** An ASCII character that is neither in the base64 alphabet nor [=]:
    a space, a line end, punctuation. *)
Definition is_foreign (c : ascii) : bool :=
  (code c <? 128) && negb (b64_alpha c) && negb (b64_pad c).

(** An ASCII character outside the base64 alphabet, [=] included. *)
Definition no_data (c : ascii) : bool :=
  (code c <? 128) && negb (b64_alpha c).

(** A world whose only dictionary, at reference 0, holds a string nonce. *)
Definition nonce_world_sample : world :=
  world_with [("nonce", VStr "1616492376594")] 0 1.

(** A world whose only dictionary, at reference 0, holds no nonce. *)
Definition asset_world_sample : world :=
  world_with [("asset", VStr "XBT")] (16164923765945 # 10000) (1 # 1000).

(** A printable ASCII character, from the space to the tilde. *)
Definition printable (c : ascii) : bool :=
  (32 <=? code c) && (code c <=? 126).

(** All characters of a string are printable ASCII. *)
Definition printable_str (s : string) : bool :=
  forallb printable (list_ascii_of_string s).

(** * Theorems *)

(** Conjunctions of boolean tests among the hypotheses, and tests on
    integers, as propositions. *)
Ltac split_andb :=
  repeat match goal with
         | H : _ && _ = true |- _ => apply andb_true_iff in H; destruct H
         end.

Ltac reflect_tests :=
  repeat match goal with
         | H : (_ =? _) = true |- _ => apply Z.eqb_eq in H
         | H : (_ <? _) = true |- _ => apply Z.ltb_lt in H
         | H : (_ <=? _) = true |- _ => apply Z.leb_le in H
         end.

(** ** The library functions *)






(** The test vectors of FIPS 180-4 (the message [abc]) and of RFC 4231
    (test case 2). *)
Lemma sha256_abc :
  hex (sha256 (encode "abc")) =
  "ba7816bf8f01cfea414140de5dae2223b00361a396177a9cb410ff61f20015ad".
Proof. vm_compute. reflexivity. Qed.

Lemma sha512_abc :
  hex (sha512 (encode "abc")) =
  "ddaf35a193617abacc417349ae20413112e6fa4e89a97ea20a9eeee64b55d39a2192992a274fc1a836ba3c23a3feebbd454d4423643ce80e2a9ac94fa54ca49f".
Proof. vm_compute. reflexivity. Qed.

Lemma hmac_sha512_rfc4231 :
  hex (hmac_sha512 (encode "Jefe") (encode "what do ya want for nothing?")) =
  "164b7a7bfcf819e2e395fbe73b56e0a387bd64222e831fd610270cd7ea2505549758bf75c05a994a6d034f65f8f0e6fdcaeab1a34d4a6b4b636e070a38bce737".
Proof. vm_compute. reflexivity. Qed.

(** ** Strict base64 is accepted by the lenient decoder *)

Lemma Z_of_byte_of_ascii (c : ascii) : Z_of_byte (byte_of_ascii c) = code c.
Proof.
  unfold Z_of_byte, code. f_equal.
  apply Byte.to_of_N. symmetry. apply byte_of_ascii_via_N.
Qed.

Lemma b64value_pad (b : byte) : is_pad b = true -> b64value b = None.
Proof.
  unfold is_pad, b64value. intros H. apply Z.eqb_eq in H. now rewrite H.
Qed.

Lemma b64_alpha_not_pad (c : ascii) :
  b64_alpha c = true -> is_pad (byte_of_ascii c) = false.
Proof.
  unfold b64_alpha. intros H.
  destruct (is_pad (byte_of_ascii c)) eqn:Hp; [|reflexivity].
  now rewrite (b64value_pad _ Hp) in H.
Qed.

Lemma b64_alpha_value (c : ascii) :
  b64_alpha c = true -> exists v, b64value (byte_of_ascii c) = Some v.
Proof.
  unfold b64_alpha. destruct (b64value (byte_of_ascii c)) as [v|];
    [now exists v | discriminate].
Qed.

Lemma b64_alpha_ascii (c : ascii) : b64_alpha c = true -> (code c <? 128) = true.
Proof.
  unfold b64_alpha, b64value. rewrite Z_of_byte_of_ascii. intros H.
  apply Z.ltb_lt.
  destruct (Z.leb_spec 65 (code c)), (Z.leb_spec (code c) 90),
    (Z.leb_spec 97 (code c)), (Z.leb_spec (code c) 122),
    (Z.leb_spec 48 (code c)), (Z.leb_spec (code c) 57),
    (Z.eqb_spec (code c) 43), (Z.eqb_spec (code c) 47);
    simpl in H; try discriminate H; lia.
Qed.


(** One step of the decoder on a character of the alphabet. *)
Lemma a2b_loop_alpha (c : ascii) (r : bytes) (quad_pos : nat) (leftchar : Z)
                     (pads : nat) (out : bytes) :
  b64_alpha c = true ->
  exists v,
    a2b_loop (byte_of_ascii c :: r) quad_pos leftchar pads out =
    match quad_pos with
    | 0%nat => a2b_loop r 1 v 0 out
    | 1%nat =>
        a2b_loop r 2 (Z.land v 15) 0
          (byte_of_Z (Z.lor (Z.shiftl leftchar 2) (Z.shiftr v 4)) :: out)
    | 2%nat =>
        a2b_loop r 3 (Z.land v 3) 0
          (byte_of_Z (Z.lor (Z.shiftl leftchar 4) (Z.shiftr v 2)) :: out)
    | _ =>
        a2b_loop r 0 0 0 (byte_of_Z (Z.lor (Z.shiftl leftchar 6) v) :: out)
    end.
Proof.
  intros Ha. destruct (b64_alpha_value c Ha) as [v Hv]. exists v.
  simpl. now rewrite (b64_alpha_not_pad c Ha), Hv.
Qed.




(** ** The decoder inverts the encoder *)

(** A property of the numbers below [n], checked on each of them. *)
Lemma forall_below (n : nat) (P : Z -> bool) :
  forallb P (map Z.of_nat (seq 0 n)) = true ->
  forall z, 0 <= z < Z.of_nat n -> P z = true.
Proof.
  intros Hall z Hz. rewrite forallb_forall in Hall. apply Hall.
  apply in_map_iff. exists (Z.to_nat z). split; [lia|].
  apply in_seq. lia.
Qed.

Lemma Z_of_byte_range (b : byte) : 0 <= Z_of_byte b < 256.
Proof.
  unfold Z_of_byte. pose proof (Byte.to_N_bounded b). lia.
Qed.

Lemma byte_of_Z_of_byte (b : byte) : byte_of_Z (Z_of_byte b) = b.
Proof.
  unfold byte_of_Z. rewrite Z.mod_small by apply Z_of_byte_range.
  unfold Z_of_byte. now rewrite N2Z.id, Byte.of_to_N.
Qed.

(** Splitting a byte in two parts and gluing them back, at the three
    places where base64 cuts. *)
Lemma split_byte (x : Z) :
  0 <= x < 256 ->
  Z.lor (Z.shiftl (Z.shiftr x 2) 2) (Z.land x 3) = x
  /\ Z.lor (Z.shiftl (Z.shiftr x 4) 4) (Z.land x 15) = x
  /\ Z.lor (Z.shiftl (Z.shiftr x 6) 6) (Z.land x 63) = x
  /\ 0 <= Z.shiftr x 2 < 64 /\ 0 <= Z.land x 63 < 64
  /\ 0 <= Z.shiftr x 4 < 16 /\ 0 <= Z.land x 15 < 16
  /\ 0 <= Z.shiftr x 6 < 4 /\ 0 <= Z.land x 3 < 4.
Proof.
  intros Hx.
  pose proof (forall_below 256
    (fun x => (Z.lor (Z.shiftl (Z.shiftr x 2) 2) (Z.land x 3) =? x)
              && (Z.lor (Z.shiftl (Z.shiftr x 4) 4) (Z.land x 15) =? x)
              && (Z.lor (Z.shiftl (Z.shiftr x 6) 6) (Z.land x 63) =? x)
              && (Z.shiftr x 2 <? 64) && (Z.land x 63 <? 64)
              && (Z.shiftr x 4 <? 16) && (Z.land x 15 <? 16)
              && (Z.shiftr x 6 <? 4) && (Z.land x 3 <? 4))
    ltac:(vm_compute; reflexivity) x Hx) as H.
  cbv beta in H. split_andb. reflect_tests.
  pose proof (Z.shiftr_nonneg x 2). pose proof (Z.shiftr_nonneg x 4).
  pose proof (Z.shiftr_nonneg x 6).
  pose proof (Z.land_nonneg x 3). pose proof (Z.land_nonneg x 15).
  pose proof (Z.land_nonneg x 63).
  repeat split; try assumption; lia.
Qed.

(** Two parts of [hi] and [lo] bits glued in one base64 value, and cut
    again. *)
Lemma glue_cut (lo : Z) (p t : Z) :
  (lo = 2 \/ lo = 4) -> 0 <= p < 2 ^ (6 - lo) -> 0 <= t < 2 ^ lo ->
  let v := Z.lor (Z.shiftl p lo) t in
  0 <= v < 64 /\ Z.shiftr v lo = p /\ Z.land v (2 ^ lo - 1) = t.
Proof.
  intros Hlo Hp Ht v. subst v.
  assert (Hcheck : forall n, 0 <= n < 64 ->
    (let p := n / 16 in let t := n mod 16 in
     (Z.lor (Z.shiftl p 4) t <? 64) && (0 <=? Z.lor (Z.shiftl p 4) t)
     && (Z.shiftr (Z.lor (Z.shiftl p 4) t) 4 =? p)
     && (Z.land (Z.lor (Z.shiftl p 4) t) 15 =? t))
    && (let p := n / 4 in let t := n mod 4 in
     (Z.lor (Z.shiftl p 2) t <? 64) && (0 <=? Z.lor (Z.shiftl p 2) t)
     && (Z.shiftr (Z.lor (Z.shiftl p 2) t) 2 =? p)
     && (Z.land (Z.lor (Z.shiftl p 2) t) 3 =? t)) = true).
  { apply (forall_below 64). vm_compute. reflexivity. }
  destruct Hlo as [-> | ->].
  - change (2 ^ (6 - 2)) with 16 in Hp. change (2 ^ 2) with 4 in Ht.
    specialize (Hcheck (p * 4 + t) ltac:(lia)). cbv zeta in Hcheck.
    replace ((p * 4 + t) / 4) with p in Hcheck
      by (apply Z.div_unique with t; lia).
    replace ((p * 4 + t) mod 4) with t in Hcheck
      by (apply Z.mod_unique with p; lia).
    apply andb_true_iff in Hcheck. destruct Hcheck as [_ Hcheck].
    split_andb. reflect_tests.
    change (2 ^ 2 - 1) with 3. repeat split; assumption.
  - change (2 ^ (6 - 4)) with 4 in Hp. change (2 ^ 4) with 16 in Ht.
    specialize (Hcheck (p * 16 + t) ltac:(lia)). cbv zeta in Hcheck.
    replace ((p * 16 + t) / 16) with p in Hcheck
      by (apply Z.div_unique with t; lia).
    replace ((p * 16 + t) mod 16) with t in Hcheck
      by (apply Z.mod_unique with p; lia).
    apply andb_true_iff in Hcheck. destruct Hcheck as [Hcheck _].
    split_andb. reflect_tests.
    change (2 ^ 4 - 1) with 15. repeat split; assumption.
Qed.

(** The character written for a value is read back as that value. *)
Lemma b64value_b64char (i : Z) :
  0 <= i < 64 ->
  b64value (b64char i) = Some i /\ is_pad (b64char i) = false
  /\ Z_of_byte (b64char i) < 128.
Proof.
  intros Hi.
  pose proof (forall_below 64
    (fun i => match b64value (b64char i) with
              | Some j => j =? i
              | None => false
              end && negb (is_pad (b64char i))
              && (Z_of_byte (b64char i) <? 128))
    ltac:(vm_compute; reflexivity) i Hi) as H.
  cbv beta in H.
  apply andb_true_iff in H. destruct H as [H H3].
  apply andb_true_iff in H. destruct H as [H1 H2].
  apply Z.ltb_lt in H3. apply negb_true_iff in H2.
  destruct (b64value (b64char i)) as [j|]; [|discriminate H1].
  apply Z.eqb_eq in H1. subst j. repeat split; assumption.
Qed.

Lemma a2b_loop_b64char (i : Z) (r : bytes) (quad_pos : nat) (leftchar : Z)
                       (pads : nat) (out : bytes) :
  0 <= i < 64 ->
  a2b_loop (b64char i :: r) quad_pos leftchar pads out =
  match quad_pos with
  | 0%nat => a2b_loop r 1 i 0 out
  | 1%nat =>
      a2b_loop r 2 (Z.land i 15) 0
        (byte_of_Z (Z.lor (Z.shiftl leftchar 2) (Z.shiftr i 4)) :: out)
  | 2%nat =>
      a2b_loop r 3 (Z.land i 3) 0
        (byte_of_Z (Z.lor (Z.shiftl leftchar 4) (Z.shiftr i 2)) :: out)
  | _ =>
      a2b_loop r 0 0 0 (byte_of_Z (Z.lor (Z.shiftl leftchar 6) i) :: out)
  end.
Proof.
  intros Hi. destruct (b64value_b64char i Hi) as [Hv [Hp _]].
  cbn [a2b_loop]. now rewrite Hp, Hv.
Qed.

(** Lists, three items at a time. *)
Lemma list_ind3 {A} (P : list A -> Prop) :
  P [] -> (forall a, P [a]) -> (forall a b, P [a; b]) ->
  (forall a b c r, P r -> P (a :: b :: c :: r)) ->
  forall l, P l.
Proof.
  intros H0 H1 H2 H3 l.
  assert (H : forall n l, (List.length l <= n)%nat -> P l).
  { induction n as [|n IH]; intros l' Hl.
    - destruct l'; [exact H0 | simpl in Hl; lia].
    - destruct l' as [|a [|b [|c r]]]; auto.
      apply H3. apply IH. simpl in Hl. lia. }
  exact (H _ l (Nat.le_refl _)).
Qed.

(** The four values written for three bytes, and what the decoder makes
    of them. *)
Lemma regroup (x y z : Z) :
  0 <= x < 256 -> 0 <= y < 256 -> 0 <= z < 256 ->
  let v1 := Z.shiftr x 2 in
  let v2 := Z.lor (Z.shiftl (Z.land x 3) 4) (Z.shiftr y 4) in
  let v3 := Z.lor (Z.shiftl (Z.land y 15) 2) (Z.shiftr z 6) in
  let v4 := Z.land z 63 in
  (0 <= v1 < 64 /\ 0 <= v2 < 64 /\ 0 <= v3 < 64 /\ 0 <= v4 < 64)
  /\ Z.lor (Z.shiftl v1 2) (Z.shiftr v2 4) = x
  /\ Z.lor (Z.shiftl (Z.land v2 15) 4) (Z.shiftr v3 2) = y
  /\ Z.lor (Z.shiftl (Z.land v3 3) 6) v4 = z.
Proof.
  intros Hx Hy Hz v1 v2 v3 v4.
  destruct (split_byte x Hx) as [Hx1 [_ [_ [Hx2 [_ [_ [_ [_ Hx3]]]]]]]].
  destruct (split_byte y Hy) as [_ [Hy1 [_ [_ [_ [Hy2 [Hy3 _]]]]]]].
  destruct (split_byte z Hz) as [_ [_ [Hz1 [_ [Hz2 [_ [_ [Hz3 _]]]]]]]].
  destruct (glue_cut 4 (Z.land x 3) (Z.shiftr y 4) (or_intror eq_refl) Hx3 Hy2)
    as [Hv2 [Hv2a Hv2b]].
  destruct (glue_cut 2 (Z.land y 15) (Z.shiftr z 6) (or_introl eq_refl) Hy3 Hz3)
    as [Hv3 [Hv3a Hv3b]].
  change (2 ^ 4 - 1) with 15 in Hv2b. change (2 ^ 2 - 1) with 3 in Hv3b.
  fold v2 in Hv2, Hv2a, Hv2b. fold v3 in Hv3, Hv3a, Hv3b.
  subst v1 v4. rewrite Hv2a, Hv2b, Hv3a, Hv3b.
  repeat split; try assumption; lia.
Qed.

Lemma a2b_loop_b64encode (bs out : bytes) :
  a2b_loop (b64encode bs) 0 0 0 out = inr (rev out ++ bs)%list.
Proof.
  revert out. induction bs as [| a | a b | a b c r IH] using list_ind3;
    intros out.
  - simpl. now rewrite app_nil_r.
  - pose proof (Z_of_byte_range a) as Ha.
    destruct (regroup (Z_of_byte a) 0 0 Ha ltac:(lia) ltac:(lia))
      as [[H1 [H2 _]] [Hx _]].
    change (Z.shiftr 0 4) with 0 in *. rewrite Z.lor_0_r in *.
    cbn [b64encode]. cbv zeta.
    rewrite (a2b_loop_b64char _ _ _ _ _ _ H1).
    rewrite (a2b_loop_b64char _ _ _ _ _ _ H2).
    rewrite Hx, byte_of_Z_of_byte. cbn. rewrite <- ?app_assoc. reflexivity.
  - pose proof (Z_of_byte_range a) as Ha.
    pose proof (Z_of_byte_range b) as Hb.
    destruct (regroup (Z_of_byte a) (Z_of_byte b) 0 Ha Hb ltac:(lia))
      as [[H1 [H2 [H3 _]]] [Hx [Hy _]]].
    change (Z.shiftr 0 6) with 0 in *. rewrite Z.lor_0_r in *.
    cbn [b64encode]. cbv zeta.
    rewrite (a2b_loop_b64char _ _ _ _ _ _ H1).
    rewrite (a2b_loop_b64char _ _ _ _ _ _ H2).
    rewrite (a2b_loop_b64char _ _ _ _ _ _ H3).
    rewrite Hx, Hy, !byte_of_Z_of_byte. cbn. rewrite <- ?app_assoc.
    reflexivity.
  - pose proof (Z_of_byte_range a) as Ha.
    pose proof (Z_of_byte_range b) as Hb.
    pose proof (Z_of_byte_range c) as Hc.
    destruct (regroup (Z_of_byte a) (Z_of_byte b) (Z_of_byte c) Ha Hb Hc)
      as [[H1 [H2 [H3 H4]]] [Hx [Hy Hz]]].
    cbn [b64encode]. cbv zeta.
    rewrite (a2b_loop_b64char _ _ _ _ _ _ H1).
    rewrite (a2b_loop_b64char _ _ _ _ _ _ H2).
    rewrite (a2b_loop_b64char _ _ _ _ _ _ H3).
    rewrite (a2b_loop_b64char _ _ _ _ _ _ H4).
    rewrite Hx, Hy, Hz, !byte_of_Z_of_byte, IH. cbn.
    rewrite <- ?app_assoc. reflexivity.
Qed.

Lemma b64encode_ascii (bs : bytes) :
  Forall (fun b => Z_of_byte b < 128) (b64encode bs).
Proof.
  induction bs as [| a | a b | a b c r IH] using list_ind3.
  - constructor.
  - pose proof (Z_of_byte_range a) as Ha.
    destruct (regroup (Z_of_byte a) 0 0 Ha ltac:(lia) ltac:(lia))
      as [[H1 [H2 _]] _].
    change (Z.shiftr 0 4) with 0 in *. rewrite Z.lor_0_r in *.
    cbn [b64encode]. cbv zeta.
    repeat constructor; try (now apply b64value_b64char); reflexivity.
  - pose proof (Z_of_byte_range a) as Ha.
    pose proof (Z_of_byte_range b) as Hb.
    destruct (regroup (Z_of_byte a) (Z_of_byte b) 0 Ha Hb ltac:(lia))
      as [[H1 [H2 [H3 _]]] _].
    change (Z.shiftr 0 6) with 0 in *. rewrite Z.lor_0_r in *.
    cbn [b64encode]. cbv zeta.
    repeat constructor; try (now apply b64value_b64char); reflexivity.
  - pose proof (Z_of_byte_range a) as Ha.
    pose proof (Z_of_byte_range b) as Hb.
    pose proof (Z_of_byte_range c) as Hc.
    destruct (regroup (Z_of_byte a) (Z_of_byte b) (Z_of_byte c) Ha Hb Hc)
      as [[H1 [H2 [H3 H4]]] _].
    cbn [b64encode]. cbv zeta.
    repeat (constructor; [now apply b64value_b64char|]). exact IH.
Qed.

(** Decoding the text of an encoding gives the bytes back. *)
Lemma b64decode_b64encode (bs : bytes) :
  b64decode (decode (b64encode bs)) = inr bs.
Proof.
  unfold b64decode, encode_ascii, decode, a2b_base64.
  rewrite list_ascii_of_string_of_list_ascii.
  assert (Hascii : forallb (fun c => code c <? 128)
                     (map ascii_of_byte (b64encode bs)) = true).
  { apply forallb_forall. intros c Hc.
    apply in_map_iff in Hc. destruct Hc as [b [<- Hb]].
    pose proof (b64encode_ascii bs) as Hall.
    rewrite Forall_forall in Hall. specialize (Hall b Hb).
    rewrite <- Z_of_byte_of_ascii, byte_of_ascii_of_byte.
    now apply Z.ltb_lt. }
  rewrite Hascii, map_map.
  rewrite (map_ext _ (fun b => b)) by apply byte_of_ascii_of_byte.
  rewrite map_id. apply a2b_loop_b64encode.
Qed.

(** ** The monad and the helpers of the script *)

Arguments sha256 : simpl never.
Arguments sha512 : simpl never.
Arguments hmac_sha512 : simpl never.
Arguments b64decode : simpl never.
Arguments b64encode : simpl never.
Arguments json_dumps : simpl never.
Arguments urlencode : simpl never.
Arguments encode : simpl never.
Arguments decode : simpl never.
Arguments str_of_int : simpl never.
Arguments int_of_float : simpl never.
Arguments dict_set : simpl never.
Arguments dict_lookup : simpl never.
Arguments get_signature : simpl never.
Arguments sign : simpl never.

Lemma say_say (w : world) (l1 l2 : list line) :
  say (say w l1) l2 = say w (l1 ++ l2).
Proof. unfold say. simpl. now rewrite app_assoc. Qed.

Lemma print_run (l : line) (w : world) : print l w = (inr tt, say w [l]).
Proof. reflexivity. Qed.

Lemma sign_run (private_key : string) (message : bytes) (w : world) :
  sign private_key message w = (sign_result private_key message, w).
Proof.
  unfold sign, sign_result, bind, lift, ret.
  destruct (b64decode private_key); reflexivity.
Qed.

Lemma get_signature_run (private_key data nonce path : string) (w : world) :
  get_signature private_key data (VStr nonce) path w =
  let shown := DebugGetSignature (substring 0 10 private_key) data
                                 (VStr nonce) path in
  match sign_result private_key (signing_message path nonce data) with
  | inl e => (inl e, say w [shown])
  | inr s => (inr s, say w [shown; DebugGetSignatureResult s])
  end.
Proof.
  unfold get_signature, bind. rewrite print_run. unfold lift. simpl add_str.
  cbv beta iota. rewrite sign_run. fold (signing_message path nonce data).
  destruct (sign_result private_key (signing_message path nonce data)).
  - reflexivity.
  - rewrite print_run, say_say. reflexivity.
Qed.

Lemma get_signature_type_error (private_key data : string) (nonce : value)
                               (path : string) (w : world) :
  is_str nonce = false ->
  get_signature private_key data nonce path w =
  (inl TypeError,
   say w [DebugGetSignature (substring 0 10 private_key) data nonce path]).
Proof.
  intros Hn. unfold get_signature, bind. rewrite print_run.
  destruct nonce; try discriminate Hn; reflexivity.
Qed.


(** ** The shape of a run of [request] *)

Lemma update_same (h : ref -> dict value) (r : ref) (d : dict value) :
  update h r d r = d.
Proof. unfold update. now rewrite Nat.eqb_refl. Qed.

Lemma update_other (h : ref -> dict value) (r r' : ref) (d : dict value) :
  r' <> r -> update h r d r' = h r'.
Proof.
  intros Hr. unfold update. destruct (Nat.eqb_spec r' r); [contradiction | reflexivity].
Qed.

Lemma len_dict_set {V} (d : dict V) (k : string) (v : V) :
  (0 <? len (dict_set d k v)) = true.
Proof.
  apply Z.ltb_lt. unfold len.
  destruct d as [|[k' v'] r]; unfold dict_set; simpl; [lia|].
  destruct (String.eqb k' k); simpl; lia.
Qed.

Lemma len_dict_get (d : dict value) (k : string) :
  dict_get d k <> VNone -> (0 <? len d) = true.
Proof.
  intros H. destruct d; [now contradiction H | apply Z.ltb_lt; unfold len; simpl; lia].
Qed.

(** Without a public key, [request] goes straight to the transport. *)
Lemma request_unauthenticated
    (method path : string) (query body : option ref)
    (private_key environment : string) (w : world) :
  request method path query body EmptyString private_key environment w =
  (inr (mkRequest method (request_url environment path query w)
                  (encode (body_string body w))
                  (content_type_header (body_present body w))),
   say w [DebugRequest (VStr EmptyString) (body_string body w)
                       (query_string query w);
          DebugSignature None]).
Proof.
  unfold request, request_url, query_string, body_string, body_present,
    content_type_header, say.
  unfold bind, load, ret, print.
  destruct query as [q|]; cbn; [destruct (0 <? len (heap w q)); cbn|];
    (destruct body as [b|]; cbn; [destruct (0 <? len (heap w b)); cbn|]);
    rewrite <- ?app_assoc; reflexivity.
Qed.

(** With a public key, lines 45 to 51 settle the nonce, and the request
    is signed. *)
Lemma request_authenticated
    (method path : string) (query body : option ref)
    (public_key private_key environment : string) (w : world) :
  0 < str_len public_key ->
  request method path query body public_key private_key environment w =
  let w2 := nonce_world body w in
  let nonce := nonce_used body w in
  let body_str := json_dumps (heap w2 (body_ref body w)) in
  let query_str := query_string query w in
  match get_signature private_key (query_str ++ body_str) nonce path w2 with
  | (inl e, w3) => (inl e, w3)
  | (inr signature, w3) =>
      (inr (mkRequest method (request_url environment path query w)
                      (encode body_str)
                      (signed_headers public_key signature)),
       say w3 [DebugRequest nonce body_str query_str;
               DebugSignature (Some signature)])
  end.
Proof.
  intros Hpk. apply Z.ltb_lt in Hpk.
  unfold request, request_url, query_string, nonce_world, nonce_used,
    enter_body, body_on_entry, body_ref.
  unfold bind, load, ret, print, new_dict, setitem, get_nonce, time_time.
  rewrite Hpk.
  assert (Hset : forall v : string,
            dict_set (dict_set (dict_set [] "Content-Type" "application/json")
                               "API-Key" public_key) "API-Sign" v
            = signed_headers public_key v) by reflexivity.
  assert (Hget : forall v : string,
            dict_lookup (signed_headers public_key v) "API-Sign" = Some v)
    by reflexivity.
  destruct query as [q|]; cbn; [destruct (0 <? len (heap w q)); cbn|];
    (destruct body as [b|]; cbn;
     [ destruct (dict_get (heap w b) "nonce") eqn:Hn; cbn;
       rewrite ?update_same, ?len_dict_set;
       rewrite ?(len_dict_get (heap w b) "nonce") by (rewrite Hn; discriminate)
     | rewrite ?update_same; change (dict_get [] "nonce") with VNone; cbn;
       rewrite ?update_same, ?len_dict_set ]);
    cbn;
    match goal with
    | |- context [get_signature ?a ?b ?c ?d ?e] =>
        destruct (get_signature a b c d e) as [[e'|sg] w3]
    end; cbn; rewrite ?Hset, ?Hget, <- ?app_assoc; reflexivity.
Qed.

(** ** Dictionaries, and the worlds a request passes through *)

Lemma dict_lookup_set_same {V} (d : dict V) (k : string) (v : V) :
  dict_lookup (dict_set d k v) k = Some v.
Proof.
  unfold dict_lookup, dict_set.
  induction d as [|[k' v'] r IH]; simpl.
  - now rewrite String.eqb_refl.
  - destruct (String.eqb k' k) eqn:E; simpl; now rewrite E.
Qed.

Lemma dict_lookup_set_other {V} (d : dict V) (k k' : string) (v : V) :
  k' <> k -> dict_lookup (dict_set d k v) k' = dict_lookup d k'.
Proof.
  intros Hk. unfold dict_lookup, dict_set.
  induction d as [|[k0 v0] r IH]; simpl.
  - destruct (String.eqb_spec k k'); [congruence | reflexivity].
  - destruct (String.eqb_spec k0 k) as [->|Hk0]; simpl.
    + destruct (String.eqb_spec k k'); [congruence | reflexivity].
    + destruct (String.eqb k0 k'); [reflexivity | exact IH].
Qed.

Lemma a2b_loop_error (cs : bytes) (quad_pos : nat) (leftchar : Z) (pads : nat)
                     (out : bytes) (e : exn) :
  a2b_loop cs quad_pos leftchar pads out = inl e -> e = BinasciiError.
Proof.
  revert quad_pos leftchar pads out.
  induction cs as [|c r IH]; intros quad_pos leftchar pads out;
    cbn [a2b_loop].
  - destruct (quad_pos =? 0)%nat; congruence.
  - destruct (is_pad c).
    + destruct (2 <=? quad_pos)%nat; [|apply IH].
      destruct (4 <=? quad_pos + (pads + 1))%nat; [discriminate | apply IH].
    + destruct (b64value c); [|apply IH].
      destruct quad_pos as [|[|[|q]]]; apply IH.
Qed.

Lemma b64decode_error (s : string) (e : exn) :
  b64decode s = inl e -> e = BinasciiError \/ e = ValueError.
Proof.
  unfold b64decode, encode_ascii, a2b_base64.
  destruct (forallb _ _).
  - intros H. left. exact (a2b_loop_error _ _ _ _ _ _ H).
  - intros H. right. congruence.
Qed.

Lemma encode_nonempty (c : ascii) (s : string) : encode (String c s) <> [].
Proof.
  unfold encode. simpl. unfold encode_char.
  destruct (code c <? 128); discriminate.
Qed.

Lemma encode_json_dumps (d : dict value) : encode (json_dumps d) <> [].
Proof. unfold json_dumps. simpl. apply encode_nonempty. Qed.

(** [get_signature] first prints what it was given, and changes nothing
    but the standard output. *)
Lemma get_signature_world (private_key data : string) (nonce : value)
                          (path : string) (w : world) :
  exists rest,
    snd (get_signature private_key data nonce path w)
    = say w (DebugGetSignature (substring 0 10 private_key) data nonce path
             :: rest).
Proof.
  destruct nonce as [| b | z | n];
    try (rewrite get_signature_type_error by reflexivity; now exists []).
  rewrite get_signature_run. cbv zeta.
  destruct (sign_result _ _); eexists; reflexivity.
Qed.

(** An authenticated request ends in the world lines 45 to 51 leave,
    with lines added to the standard output; the first of them shows
    what [get_signature] was given. *)
Lemma request_authenticated_world
    (method path : string) (query body : option ref)
    (public_key private_key environment : string) (w : world) :
  0 < str_len public_key ->
  exists rest,
    snd (request method path query body public_key private_key environment w)
    = say (nonce_world body w)
          (DebugGetSignature (substring 0 10 private_key)
             (query_string query w
              ++ json_dumps (heap (nonce_world body w) (body_ref body w)))
             (nonce_used body w) path :: rest).
Proof.
  intros Hpk. rewrite request_authenticated by exact Hpk. cbv zeta.
  match goal with
  | |- context [get_signature ?a ?b ?c ?d ?e] =>
      destruct (get_signature_world a b c d e) as [rest Hw];
      destruct (get_signature a b c d e) as [[e'|sg] w3]
  end; cbn [snd] in *; subst w3.
  - now exists rest.
  - rewrite say_say. eexists. reflexivity.
Qed.

(** ** The message that is signed *)



(** ** The signer *)



(** The signature of the example message of the specification under the
    key of [main], as Python's [hmac], [hashlib] and [base64] compute it. *)
Lemma sign_example :
  sign_result main_private_key
    (signing_message "/0/private/Balance" "1616492376594" EmptyString)
  = inr "ElELT1w+6fq+3I4B8t+AwtPNjVHLmaHSXRFK42tEiQ3XggjJFNoUfzFg0cVncgynu+mqs7MAxrgOvZpuDEbm3w==".
Proof. vm_compute. reflexivity. Qed.

(** For the base64 text of any key, [sign] gives the base64 text of the
    HMAC under that key. *)
Lemma sign_encoded_key (key message : bytes) (w : world) :
  sign (decode (b64encode key)) message w
  = (inr (decode (b64encode (hmac_digest sha512 128 key message))), w).
Proof.
  rewrite sign_run. unfold sign_result.
  now rewrite b64decode_b64encode.
Qed.

(** C9. The message builder and the signature computation are functions
    of their arguments alone: in any two worlds [get_signature] (and
    [sign]) give the same result for the same private key, payload, nonce
    and path, and they leave the clock and the heap as they found them. *)
Theorem get_signature_deterministic :
  forall (private_key data : string) (nonce : value) (path : string)
         (w1 w2 : world),
    fst (get_signature private_key data nonce path w1)
    = fst (get_signature private_key data nonce path w2)
    /\ (forall message,
          fst (sign private_key message w1) = fst (sign private_key message w2)
          /\ snd (sign private_key message w1) = w1)
    /\ (let w1' := snd (get_signature private_key data nonce path w1) in
        clock w1' = clock w1 /\ ticks w1' = ticks w1
        /\ heap w1' = heap w1 /\ next_ref w1' = next_ref w1).
Proof.
  intros private_key data nonce path w1 w2. split; [|split].
  - destruct nonce as [| b | z | n];
      try (rewrite !get_signature_type_error by reflexivity; reflexivity).
    rewrite !get_signature_run. cbv zeta.
    now destruct (sign_result _ _).
  - intros message. now rewrite !sign_run.
  - destruct nonce as [| b | z | n];
      try (rewrite !get_signature_type_error by reflexivity; now cbn).
    rewrite get_signature_run. cbv zeta.
    destruct (sign_result _ _); now cbn.
Qed.

(** ** The nonce generator *)






(** ** Requests without a public key *)

(** C6. With an empty public key [request] reaches the transport with
    neither [API-Key] nor [API-Sign] among the headers; the clock is not
    read (no nonce), no dictionary is changed or created, and the only
    lines printed are the two of [request] itself, none of
    [get_signature]. *)
Theorem request_without_public_key :
  forall (method path : string) (query body : option ref)
         (private_key environment : string) (w : world),
    exists req,
      request method path query body EmptyString private_key environment w
      = (inr req,
         say w [DebugRequest (VStr EmptyString) (body_string body w)
                             (query_string query w);
                DebugSignature None])
      /\ dict_lookup (req_headers req) "API-Key" = None
      /\ dict_lookup (req_headers req) "API-Sign" = None
      /\ (let w' := snd (request method path query body EmptyString
                                 private_key environment w) in
          ticks w' = ticks w /\ heap w' = heap w /\ next_ref w' = next_ref w).
Proof.
  intros method path query body private_key environment w.
  rewrite request_unauthenticated. eexists. split; [reflexivity|].
  cbn [req_headers snd]. unfold content_type_header.
  destruct (body_present body w); repeat split; reflexivity.
Qed.

(** ** Authenticated requests *)

(** C3, as the code has it. When [base64.b64decode] rejects the private
    key of an authenticated request, [request] raises and nothing reaches
    the transport; when the nonce is a string, the exception is the
    decoder's: [binascii.Error], or [ValueError] for a key that is not
    ASCII. *)
Theorem request_rejected_key :
  forall (method path : string) (query body : option ref)
         (public_key private_key environment : string) (w : world) (e : exn),
    0 < str_len public_key ->
    b64decode private_key = inl e ->
    let r := fst (request method path query body public_key private_key
                          environment w) in
    reaches_transport r = false
    /\ (is_str (nonce_used body w) = true -> r = inl e)
    /\ (e = BinasciiError \/ e = ValueError).
Proof.
  intros method path query body public_key private_key environment w e
    Hpk Hkey r. subst r.
  rewrite request_authenticated by exact Hpk. cbv zeta.
  split; [|split; [|exact (b64decode_error _ _ Hkey)]].
  - destruct (nonce_used body w) as [| b | z | n].
    1-3: rewrite get_signature_type_error by reflexivity; reflexivity.
    rewrite get_signature_run. cbv zeta. unfold sign_result. now rewrite Hkey.
  - intros Hstr. destruct (nonce_used body w) as [| b | z | n];
      try discriminate Hstr.
    rewrite get_signature_run. cbv zeta. unfold sign_result. now rewrite Hkey.
Qed.

(** The call of [main] with the unpadded key [YQ]. *)
Lemma request_rejected_key_witness :
  let w := sample_world (16164923765945 # 10000) (1 # 1000) in
  let r := fst (request "POST" "/0/private/Balance" None None "public" "YQ"
                        "https://api.kraken.com" w) in
  0 < str_len "public"
  /\ b64decode "YQ" = inl BinasciiError
  /\ is_str (nonce_used None w) = true
  /\ reaches_transport r = false
  /\ r = inl BinasciiError.
Proof.
  intros w r.
  assert (Hpk : 0 < str_len "public") by reflexivity.
  assert (Hkey : b64decode "YQ" = inl BinasciiError)
    by (vm_compute; reflexivity).
  assert (Hstr : is_str (nonce_used None w) = true) by reflexivity.
  pose proof (request_rejected_key "POST" "/0/private/Balance" None None
                "public" "YQ" "https://api.kraken.com" w BinasciiError
                Hpk Hkey) as H.
  cbv zeta in H. destruct H as [Hr [He _]].
  split; [exact Hpk|]. split; [exact Hkey|]. split; [exact Hstr|].
  split; [exact Hr | exact (He Hstr)].
Defined.

(** C3 as stated fails: the key [YWJj!] is not valid base64, yet the
    decoder drops the [!], and the request is signed with the key [abc]
    and reaches the transport. *)
Lemma request_accepts_lenient_key :
  let w := sample_world (16164923765945 # 10000) (1 # 1000) in
  let r := fst (request "POST" "/0/private/Balance" None None "public"
                        "YWJj!" "https://api.kraken.com" w) in
  valid_base64 "YWJj!" = false
  /\ b64decode "YWJj!" = inr (encode "abc")
  /\ reaches_transport r = true
  /\ api_sign r
     = Some "zKf+TDKtSy25KcaPqoBWadyHBnIENcHtq9rgHhgE2ym+RNmzj1punF5BK7R0R0/P/dGY9HS25u7WRQp5Tmt6MQ==".
Proof. vm_compute. repeat split. Qed.




(** C7, as the code has it. In an authenticated request a value other
    than [None] that the body holds under [nonce] is the nonce given to
    [get_signature], and the clock is not read; when the body has no
    [nonce], or holds [None] under it, a nonce is generated from the
    clock and stored in the body, and the payload that is signed is
    serialized from the body with that nonce in it. *)
Theorem request_nonce_precedence :
  forall (method path : string) (query body : option ref)
         (public_key private_key environment : string) (w : world),
    0 < str_len public_key ->
    let v := dict_get (body_on_entry body w) "nonce" in
    let w' := snd (request method path query body public_key private_key
                           environment w) in
    let b := body_ref body w in
    (v <> VNone ->
       ticks w' = ticks w
       /\ exists rest,
            stdout w'
            = (stdout w
               ++ DebugGetSignature (substring 0 10 private_key)
                    (query_string query w ++ json_dumps (heap w b)) v path
                  :: rest)%list)
    /\ (v = VNone ->
          ticks w' = S (ticks w)
          /\ heap w' b
             = dict_set (body_on_entry body w) "nonce" (VStr (next_nonce w))
          /\ exists rest,
               stdout w'
               = (stdout w
                  ++ DebugGetSignature (substring 0 10 private_key)
                       (query_string query w ++ json_dumps (heap w' b))
                       (VStr (next_nonce w)) path
                     :: rest)%list).
Proof.
  intros method path query body public_key private_key environment w Hpk
    v w' b.
  destruct (request_authenticated_world method path query body public_key
              private_key environment w Hpk) as [rest Hw].
  fold w' in Hw. fold b in Hw. subst v.
  unfold nonce_world, nonce_used in Hw.
  split; intros Hv.
  - assert (Hbody : exists b0, body = Some b0).
    { destruct body as [b0|]; [now exists b0 | now contradiction Hv]. }
    destruct Hbody as [b0 ->].
    cbn [body_on_entry enter_body body_ref] in *.
    destruct (dict_get (heap w b0) "nonce") eqn:Hn; [now contradiction Hv | ..];
      rewrite Hw; cbn [say ticks stdout]; (split; [reflexivity | now exists rest]).
  - rewrite Hv in Hw.
    assert (Hclock : clock (enter_body body w) = clock w
                     /\ ticks (enter_body body w) = ticks w
                     /\ stdout (enter_body body w) = stdout w)
      by (destruct body; repeat split; reflexivity).
    destruct Hclock as [Hc [Ht Hs]].
    cbn [heap] in Hw. rewrite update_same in Hw.
    rewrite Hw. cbn [say ticks heap stdout]. rewrite update_same, Ht, Hs.
    split; [reflexivity|]. split; [reflexivity|]. now exists rest.
Qed.

Lemma request_nonce_precedence_witness :
  let w := world_with [("nonce", VStr "1616492376594")] 0 1 in
  0 < str_len "public"
  /\ dict_get (body_on_entry (Some 0%nat) w) "nonce" <> VNone
  /\ dict_get (body_on_entry None w) "nonce" = VNone
  /\ (let w' := snd (request "POST" "/0/private/Balance" None (Some 0%nat)
                             "public" main_private_key
                             "https://api.kraken.com" w) in
      ticks w' = ticks w)
  /\ (let w' := snd (request "POST" "/0/private/Balance" None None
                             "public" main_private_key
                             "https://api.kraken.com" w) in
      ticks w' = S (ticks w)).
Proof.
  intros w.
  assert (Hpk : 0 < str_len "public") by reflexivity.
  assert (H1 : dict_get (body_on_entry (Some 0%nat) w) "nonce" <> VNone)
    by (vm_compute; discriminate).
  assert (H2 : dict_get (body_on_entry None w) "nonce" = VNone)
    by reflexivity.
  split; [exact Hpk|]. split; [exact H1|]. split; [exact H2|]. split.
  - exact (proj1 (proj1 (request_nonce_precedence "POST" "/0/private/Balance"
             None (Some 0%nat) "public" main_private_key
             "https://api.kraken.com" w Hpk) H1)).
  - exact (proj1 (proj2 (request_nonce_precedence "POST" "/0/private/Balance"
             None None "public" main_private_key
             "https://api.kraken.com" w Hpk) H2)).
Defined.

(** C7 as stated fails: the body holds a [nonce] field, with the value
    [None]; a nonce is generated all the same, and it is the one given
    to [get_signature]. *)
Lemma request_replaces_none_nonce :
  let w := world_with [("nonce", VNone)] (16164923765945 # 10000) (1 # 1000) in
  let w' := snd (request "POST" "/0/private/Balance" None (Some 0%nat)
                         "public" main_private_key
                         "https://api.kraken.com" w) in
  dict_lookup (heap w 0%nat) "nonce" = Some VNone
  /\ ticks w = 0%nat /\ ticks w' = 1%nat
  /\ hd_error (stdout w')
     = Some (DebugGetSignature "bZI23Z8QfS"
               (json_dumps [("nonce", VStr "1616492376594")])
               (VStr "1616492376594") "/0/private/Balance").
Proof. vm_compute. repeat split. Qed.

(** C10, as the code has it. In an authenticated request with a body
    that has no [nonce], or holds [None] under it, the generated nonce is
    written into the caller's dictionary; every other key keeps its
    value and every other dictionary is left alone. With any other value
    under [nonce], no dictionary is changed. *)
Theorem request_body_effect :
  forall (method path : string) (query : option ref) (b : ref)
         (public_key private_key environment : string) (w : world),
    0 < str_len public_key ->
    let w' := snd (request method path query (Some b) public_key private_key
                           environment w) in
    (dict_get (heap w b) "nonce" = VNone ->
       heap w' b = dict_set (heap w b) "nonce" (VStr (next_nonce w))
       /\ dict_lookup (heap w' b) "nonce" = Some (VStr (next_nonce w))
       /\ (forall k, k <> "nonce" ->
                     dict_lookup (heap w' b) k = dict_lookup (heap w b) k)
       /\ (forall r, r <> b -> heap w' r = heap w r))
    /\ (dict_get (heap w b) "nonce" <> VNone ->
          forall r, heap w' r = heap w r).
Proof.
  intros method path query b public_key private_key environment w Hpk w'.
  destruct (request_authenticated_world method path query (Some b) public_key
              private_key environment w Hpk) as [rest Hw].
  fold w' in Hw. unfold nonce_world, nonce_used in Hw.
  cbn [body_on_entry enter_body body_ref] in Hw.
  split; intros Hv.
  - rewrite Hv in Hw. rewrite Hw. cbn [say heap]. unfold next_nonce.
    split; [apply update_same|]. rewrite update_same.
    split; [apply dict_lookup_set_same|].
    split; [intros k Hk; now apply dict_lookup_set_other|].
    intros r Hr. now apply update_other.
  - intros r.
    destruct (dict_get (heap w b) "nonce"); [now contradiction Hv | ..];
      now rewrite Hw.
Qed.

Lemma request_body_effect_witness :
  let w := world_with [("asset", VStr "XBT")] (16164923765945 # 10000) (1 # 1000) in
  let w' := snd (request "POST" "/0/private/Balance" None (Some 0%nat)
                         "public" main_private_key
                         "https://api.kraken.com" w) in
  0 < str_len "public"
  /\ dict_get (heap w 0%nat) "nonce" = VNone
  /\ dict_get (heap w' 0%nat) "nonce" <> VNone
  /\ heap w' 0%nat = dict_set (heap w 0%nat) "nonce" (VStr (next_nonce w))
  /\ (forall r, heap (snd (request "POST" "/0/private/Balance" None
                             (Some 0%nat) "public" main_private_key
                             "https://api.kraken.com" w')) r = heap w' r).
Proof.
  intros w w'.
  assert (Hpk : 0 < str_len "public") by reflexivity.
  assert (H1 : dict_get (heap w 0%nat) "nonce" = VNone) by reflexivity.
  assert (H2 : dict_get (heap w' 0%nat) "nonce" <> VNone)
    by (vm_compute; discriminate).
  split; [exact Hpk|]. split; [exact H1|]. split; [exact H2|]. split.
  - exact (proj1 (proj1 (request_body_effect "POST" "/0/private/Balance" None
             0%nat "public" main_private_key "https://api.kraken.com" w Hpk)
             H1)).
  - exact (proj2 (request_body_effect "POST" "/0/private/Balance" None
             0%nat "public" main_private_key "https://api.kraken.com" w' Hpk)
             H2).
Defined.

(** C10 as stated fails: the body has a [nonce] key, holding [None], and
    the dictionary is changed. *)
Lemma request_overwrites_none_nonce :
  let w := world_with [("nonce", VNone); ("asset", VStr "XBT")]
                      (16164923765945 # 10000) (1 # 1000) in
  let w' := snd (request "POST" "/0/private/Balance" None (Some 0%nat)
                         "public" main_private_key
                         "https://api.kraken.com" w) in
  dict_lookup (heap w 0%nat) "nonce" = Some VNone
  /\ heap w' 0%nat
     = [("nonce", VStr "1616492376594"); ("asset", VStr "XBT")]
  /\ heap w' 0%nat <> heap w 0%nat.
Proof. vm_compute. repeat split. discriminate. Qed.

(** ** The [Content-Type] header *)

(** C8. In every request that reaches the transport, the header
    [Content-Type: application/json] is attached exactly when the body
    dictionary, after the nonce has been merged, is present and not empty;
    this is exactly when the data sent is not empty, the data being the
    JSON text of that dictionary. *)
Theorem content_type_iff_body :
  forall (method path : string) (query body : option ref)
         (public_key private_key environment : string) (w w' : world)
         (req : Request),
    request method path query body public_key private_key environment w
    = (inr req, w') ->
    let body' := if 0 <? str_len public_key
                 then Some (body_ref body w) else body in
    (dict_lookup (req_headers req) "Content-Type" = Some "application/json"
     <-> body_present body' w' = true)
    /\ (dict_lookup (req_headers req) "Content-Type" = None
        <-> body_present body' w' = false)
    /\ (body_present body' w' = true <-> req_data req <> [])
    /\ req_data req = encode (body_string body' w').
Proof.
  intros method path query body public_key private_key environment w w' req
    Hrun body'.
  destruct public_key as [|c pk].
  - rewrite request_unauthenticated in Hrun.
    injection Hrun as Hreq Hw. subst req w'.
    subst body'. cbn [str_len String.length Z.of_nat Z.ltb Z.compare].
    cbn [req_headers req_data].
    assert (Hp : body_present body
                   (say w [DebugRequest (VStr EmptyString) (body_string body w)
                             (query_string query w); DebugSignature None])
                 = body_present body w) by (destruct body; reflexivity).
    assert (Hs : body_string body
                   (say w [DebugRequest (VStr EmptyString) (body_string body w)
                             (query_string query w); DebugSignature None])
                 = body_string body w) by (destruct body; reflexivity).
    rewrite Hp, Hs. unfold body_string, body_present, content_type_header.
    destruct body as [b|]; [destruct (0 <? len (heap w b))|];
      repeat split; try discriminate; try reflexivity;
      try (intros _; apply encode_json_dumps);
      try (intros H; now contradiction H).
  - assert (Hpk : 0 < str_len (String c pk))
      by (unfold str_len; simpl String.length; lia).
    assert (Hb : (0 <? str_len (String c pk)) = true) by now apply Z.ltb_lt.
    subst body'. rewrite Hb.
    destruct (request_authenticated_world method path query body (String c pk)
                private_key environment w Hpk) as [rest Hw].
    rewrite Hrun in Hw. cbn [snd] in Hw.
    rewrite request_authenticated in Hrun by exact Hpk. cbv zeta in Hrun.
    destruct (get_signature _ _ _ _ _) as [[e|sg] w3]; [discriminate Hrun|].
    injection Hrun as Hreq Hw3. subst req.
    assert (Hheap : heap w' (body_ref body w)
                    = heap (nonce_world body w) (body_ref body w))
      by now rewrite Hw.
    assert (Hlen : (0 <? len (heap (nonce_world body w) (body_ref body w)))
                   = true).
    { unfold nonce_world, body_ref, body_on_entry, enter_body.
      destruct body as [b|].
      - destruct (dict_get (heap w b) "nonce") eqn:Hn;
          [cbn [heap]; rewrite update_same; apply len_dict_set | ..];
          apply (len_dict_get (heap w b) "nonce"); rewrite Hn; discriminate.
      - change (dict_get [] "nonce") with VNone. cbn [heap].
        rewrite update_same. apply len_dict_set. }
    unfold body_present, body_string. rewrite Hheap, Hlen.
    cbn [req_headers req_data].
    repeat split; try discriminate; try reflexivity;
      try (intros _; apply encode_json_dumps).
Qed.

(** The call of [main] reaches the transport. *)
Lemma content_type_iff_body_witness :
  let w := sample_world (16164923765945 # 10000) (1 # 1000) in
  let r := main_request w in
  let req :=
    mkRequest "POST" "https://api.kraken.com/0/private/Balance"
      (encode (json_dumps [("nonce", VStr "1616492376594")]))
      (signed_headers
         "9UA5+IEHP68a8i7pwRRiahubuj14J/LIfs05vhupHyFbT7GWyFs9gXr1"
         "9OB7imYSeYA9WoPrg22ANMlWbONSvhbGbwqOBDqowKFKgo2i/tD0IRqIsFs7Uwj2dnZkH7n+5nTKfG55nCQ8UA==") in
  r = (inr req, snd r)
  /\ (dict_lookup (req_headers req) "Content-Type" = Some "application/json"
      <-> body_present (Some (body_ref None w)) (snd r) = true).
Proof.
  intros w r req.
  assert (Hrun : r = (inr req, snd r)).
  { assert (Hfst : fst r = inr req) by (vm_compute; reflexivity).
    rewrite (surjective_pairing r) at 1. now rewrite Hfst. }
  split; [exact Hrun|].
  exact (proj1 (content_type_iff_body "POST" "/0/private/Balance" None None
           "9UA5+IEHP68a8i7pwRRiahubuj14J/LIfs05vhupHyFbT7GWyFs9gXr1"
           main_private_key "https://api.kraken.com" w (snd r) req Hrun)).
Defined.

(** * Further properties of the script *)

(** ** Facts shared by the statements below *)

Lemma str_len_zero (s : string) : (0 <? str_len s) = false -> s = EmptyString.
Proof.
  destruct s as [|c s]; [reflexivity|].
  unfold str_len. simpl String.length. intros H.
  apply Z.ltb_ge in H. lia.
Qed.

Lemma dict_get_lookup (d : dict value) (k : string) :
  dict_get d k <> VNone -> dict_lookup d k = Some (dict_get d k).
Proof.
  unfold dict_get. destruct (dict_lookup d k); [reflexivity | now intros H].
Qed.

(** Lines 45 to 51 always leave a nonce in the body, the one they leave
    in the variable [nonce]. *)
Lemma nonce_used_not_none (body : option ref) (w : world) :
  nonce_used body w <> VNone.
Proof.
  unfold nonce_used.
  destruct (dict_get (body_on_entry body w) "nonce") eqn:Hn; discriminate.
Qed.

Lemma nonce_world_lookup (body : option ref) (w : world) :
  dict_lookup (heap (nonce_world body w) (body_ref body w)) "nonce"
  = Some (nonce_used body w).
Proof.
  unfold nonce_world, nonce_used.
  destruct (dict_get (body_on_entry body w) "nonce") eqn:Hn;
    [cbn [heap]; rewrite update_same; apply dict_lookup_set_same | ..];
    (destruct body as [b0|]; [|discriminate Hn]);
    cbn [enter_body body_ref body_on_entry] in *;
    rewrite <- Hn; apply dict_get_lookup; rewrite Hn; discriminate.
Qed.

(** The run of an authenticated request whose nonce is a string and whose
    key is accepted. *)
Lemma request_signed
    (method path : string) (query body : option ref)
    (public_key private_key environment : string) (w : world)
    (nonce : string) (key : bytes) :
  0 < str_len public_key ->
  nonce_used body w = VStr nonce ->
  b64decode private_key = inr key ->
  let w2 := nonce_world body w in
  let body_str := json_dumps (heap w2 (body_ref body w)) in
  let query_str := query_string query w in
  let signature :=
    decode (b64encode (hmac_sha512 key
              (signing_message path nonce (query_str ++ body_str)))) in
  request method path query body public_key private_key environment w
  = (inr (mkRequest method (request_url environment path query w)
                    (encode body_str) (signed_headers public_key signature)),
     say w2 [DebugGetSignature (substring 0 10 private_key)
                               (query_str ++ body_str) (VStr nonce) path;
             DebugGetSignatureResult signature;
             DebugRequest (VStr nonce) body_str query_str;
             DebugSignature (Some signature)]).
Proof.
  intros Hpk Hnonce Hkey w2 body_str query_str signature.
  rewrite request_authenticated by exact Hpk. cbv zeta.
  rewrite Hnonce, get_signature_run. cbv zeta.
  unfold sign_result. rewrite Hkey.
  fold w2 body_str query_str signature. now rewrite say_say.
Qed.

(** What an authenticated request comes to, by the nonce and the key. *)
Lemma request_outcome_cases
    (method path : string) (query body : option ref)
    (public_key private_key environment : string) (w : world) :
  0 < str_len public_key ->
  match nonce_used body w with
  | VStr _ =>
      match b64decode private_key with
      | inl e =>
          fst (request method path query body public_key private_key
                       environment w) = inl e
      | inr _ =>
          reaches_transport
            (fst (request method path query body public_key private_key
                          environment w)) = true
      end
  | _ =>
      fst (request method path query body public_key private_key
                   environment w) = inl TypeError
  end.
Proof.
  intros Hpk. rewrite request_authenticated by exact Hpk. cbv zeta.
  destruct (nonce_used body w) as [| b | z | n].
  1-3: rewrite get_signature_type_error by reflexivity; reflexivity.
  rewrite get_signature_run. cbv zeta. unfold sign_result.
  destruct (b64decode private_key); reflexivity.
Qed.

(** ** When a request is sent, and what is sent *)



(** X2. In an authenticated request that reaches the transport, the body
    that is sent is the JSON text of the dictionary as the call leaves
    it; that dictionary holds, under [nonce], the string that was signed;
    the text that was signed after the nonce is the query string followed
    by the very text that is sent; and [API-Key] is the public key. *)
Theorem request_sends_what_it_signs :
  forall (method path : string) (query body : option ref)
         (public_key private_key environment : string) (w w' : world)
         (req : Request),
    0 < str_len public_key ->
    request method path query body public_key private_key environment w
    = (inr req, w') ->
    let d := heap w' (body_ref body w) in
    exists nonce key,
      dict_lookup d "nonce" = Some (VStr nonce)
      /\ req_data req = encode (json_dumps d)
      /\ b64decode private_key = inr key
      /\ dict_lookup (req_headers req) "API-Sign"
         = Some (decode (b64encode (hmac_sha512 key
                   (encode path
                    ++ sha256 (encode (nonce ++ (query_string query w
                                                 ++ json_dumps d))))%list)))
      /\ dict_lookup (req_headers req) "API-Key" = Some public_key
      /\ req_method req = method
      /\ req_url req = request_url environment path query w.
Proof.
  intros method path query body public_key private_key environment w w' req
    Hpk Hrun d.
  pose proof (request_outcome_cases method path query body public_key
                private_key environment w Hpk) as Hcases.
  rewrite Hrun in Hcases. cbn [fst] in Hcases.
  destruct (nonce_used body w) as [| b | z | nonce] eqn:Hnonce;
    try discriminate Hcases.
  destruct (b64decode private_key) as [e | key] eqn:Hkey;
    [discriminate Hcases|].
  rewrite (request_signed method path query body public_key private_key
             environment w nonce key Hpk Hnonce Hkey) in Hrun.
  cbv zeta in Hrun. injection Hrun as Hreq Hw'.
  assert (Hd : d = heap (nonce_world body w) (body_ref body w))
    by (subst d w'; reflexivity).
  exists nonce, key. rewrite Hd, nonce_world_lookup, Hnonce. subst req.
  repeat split; reflexivity.
Qed.

Lemma request_sends_what_it_signs_witness :
  let w := nonce_world_sample in
  exists req w',
    request "POST" "/0/private/Balance" None (Some 0%nat) "public"
            main_private_key "https://api.kraken.com" w = (inr req, w')
    /\ exists nonce key,
         dict_lookup (heap w' 0%nat) "nonce" = Some (VStr nonce)
         /\ req_data req = encode (json_dumps (heap w' 0%nat))
         /\ b64decode main_private_key = inr key
         /\ dict_lookup (req_headers req) "API-Sign"
            = Some (decode (b64encode (hmac_sha512 key
                      (encode "/0/private/Balance"
                       ++ sha256 (encode (nonce ++ (query_string None w
                                    ++ json_dumps (heap w' 0%nat)))))%list)))
         /\ dict_lookup (req_headers req) "API-Key" = Some "public"
         /\ req_method req = "POST"
         /\ req_url req
            = request_url "https://api.kraken.com" "/0/private/Balance" None w.
Proof.
  intros w.
  assert (Hpk : 0 < str_len "public") by reflexivity.
  assert (Hnonce : nonce_used (Some 0%nat) w = VStr "1616492376594")
    by reflexivity.
  assert (Hkey : b64decode main_private_key
                 = inr (decoded_key main_private_key))
    by (vm_compute; reflexivity).
  pose proof (request_signed "POST" "/0/private/Balance" None (Some 0%nat)
                "public" main_private_key "https://api.kraken.com" w
                "1616492376594" (decoded_key main_private_key)
                Hpk Hnonce Hkey) as Hrun.
  cbv zeta in Hrun.
  eexists _, _. split; [exact Hrun|].
  exact (request_sends_what_it_signs _ _ _ _ _ _ _ _ _ _ Hpk Hrun).
Defined.

(** ** What a request does to the caller's dictionaries *)

(** X3. An authenticated request without a body creates one new
    dictionary, reads the clock once and leaves every dictionary that
    existed alone; the new dictionary holds the generated nonce and
    nothing else. This holds whether or not signing then fails. *)
Theorem request_without_body_frame :
  forall (method path : string) (query : option ref)
         (public_key private_key environment : string) (w : world),
    0 < str_len public_key ->
    let w' := snd (request method path query None public_key private_key
                           environment w) in
    next_ref w' = S (next_ref w)
    /\ ticks w' = S (ticks w)
    /\ heap w' (next_ref w) = [("nonce", VStr (next_nonce w))]
    /\ (forall r, r <> next_ref w -> heap w' r = heap w r).
Proof.
  intros method path query public_key private_key environment w Hpk w'.
  destruct (request_authenticated_world method path query None public_key
              private_key environment w Hpk) as [rest Hw].
  fold w' in Hw. rewrite Hw. unfold nonce_world, next_nonce.
  cbn [body_on_entry enter_body body_ref].
  change (dict_get [] "nonce") with VNone.
  cbn [say new_dict snd next_ref ticks heap clock].
  repeat split.
  - now rewrite update_same.
  - intros r Hr. now rewrite !update_other by exact Hr.
Qed.

Lemma request_without_body_frame_witness :
  let w := asset_world_sample in
  let w' := snd (main_request w) in
  next_ref w' = S (next_ref w)
  /\ ticks w' = S (ticks w)
  /\ heap w' (next_ref w) = [("nonce", VStr (next_nonce w))]
  /\ (forall r, r <> next_ref w -> heap w' r = heap w r).
Proof.
  intros w w'.
  apply (request_without_body_frame "POST" "/0/private/Balance" None
           "9UA5+IEHP68a8i7pwRRiahubuj14J/LIfs05vhupHyFbT7GWyFs9gXr1"
           main_private_key "https://api.kraken.com" w).
  reflexivity.
Defined.

(** X4. A dictionary that has been the body of an authenticated request
    carries a nonce from then on: a second authenticated request with
    the same dictionary, whatever its other arguments, does not read the
    clock, changes no dictionary, and gives [get_signature] the nonce of
    the first request. *)
Theorem request_reuses_nonce :
  forall (method1 path1 : string) (query1 : option ref)
         (public_key1 private_key1 environment1 : string)
         (method2 path2 : string) (query2 : option ref)
         (public_key2 private_key2 environment2 : string)
         (b : ref) (w : world),
    0 < str_len public_key1 ->
    0 < str_len public_key2 ->
    let w1 := snd (request method1 path1 query1 (Some b) public_key1
                           private_key1 environment1 w) in
    let w2 := snd (request method2 path2 query2 (Some b) public_key2
                           private_key2 environment2 w1) in
    dict_lookup (heap w1 b) "nonce" = Some (nonce_used (Some b) w)
    /\ ticks w2 = ticks w1
    /\ (forall r, heap w2 r = heap w1 r)
    /\ exists data rest,
         stdout w2
         = (stdout w1
            ++ DebugGetSignature (substring 0 10 private_key2) data
                 (nonce_used (Some b) w) path2 :: rest)%list.
Proof.
  intros method1 path1 query1 public_key1 private_key1 environment1
    method2 path2 query2 public_key2 private_key2 environment2 b w
    Hpk1 Hpk2 w1 w2.
  destruct (request_authenticated_world method1 path1 query1 (Some b)
              public_key1 private_key1 environment1 w Hpk1) as [rest1 Hw1].
  fold w1 in Hw1.
  assert (Hlookup : dict_lookup (heap w1 b) "nonce"
                    = Some (nonce_used (Some b) w)).
  { rewrite Hw1. cbn [say heap]. exact (nonce_world_lookup (Some b) w). }
  assert (Hget : dict_get (body_on_entry (Some b) w1) "nonce"
                 = nonce_used (Some b) w).
  { cbn [body_on_entry]. unfold dict_get. now rewrite Hlookup. }
  pose proof (nonce_used_not_none (Some b) w) as Hnot.
  assert (Hworld : nonce_world (Some b) w1 = w1).
  { unfold nonce_world. rewrite Hget.
    destruct (nonce_used (Some b) w); [now contradiction Hnot | ..];
      reflexivity. }
  assert (Hused : nonce_used (Some b) w1 = nonce_used (Some b) w).
  { unfold nonce_used at 1. rewrite Hget.
    destruct (nonce_used (Some b) w); [now contradiction Hnot | ..];
      reflexivity. }
  destruct (request_authenticated_world method2 path2 query2 (Some b)
              public_key2 private_key2 environment2 w1 Hpk2) as [rest2 Hw2].
  fold w2 in Hw2. rewrite Hworld, Hused in Hw2.
  split; [exact Hlookup|]. rewrite Hw2. cbn [say ticks heap stdout].
  repeat split. eexists _, rest2. reflexivity.
Qed.

Lemma request_reuses_nonce_witness :
  let w := asset_world_sample in
  let w1 := snd (request "POST" "/0/private/Balance" None (Some 0%nat)
                         "public" main_private_key
                         "https://api.kraken.com" w) in
  let w2 := snd (request "POST" "/0/private/TradeBalance" None (Some 0%nat)
                         "public" main_private_key
                         "https://api.kraken.com" w1) in
  0 < str_len "public"
  /\ dict_lookup (heap w1 0%nat) "nonce" = Some (nonce_used (Some 0%nat) w)
  /\ ticks w2 = ticks w1.
Proof.
  intros w w1 w2.
  assert (Hpk : 0 < str_len "public") by reflexivity.
  pose proof (request_reuses_nonce
                "POST" "/0/private/Balance" None "public" main_private_key
                "https://api.kraken.com"
                "POST" "/0/private/TradeBalance" None "public"
                main_private_key "https://api.kraken.com"
                0%nat w Hpk Hpk) as H.
  cbv zeta in H. destruct H as [H1 [H2 _]].
  split; [exact Hpk|]. split; [exact H1 | exact H2].
Defined.

(** X5. When the body of an authenticated request has no nonce and
    [base64.b64decode] rejects the private key, the request raises the
    decoder's exception, and yet the clock has been read and the
    generated nonce has been written into the caller's dictionary. *)
Theorem request_failure_keeps_nonce :
  forall (method path : string) (query : option ref) (b : ref)
         (public_key private_key environment : string) (w : world) (e : exn),
    0 < str_len public_key ->
    dict_get (heap w b) "nonce" = VNone ->
    b64decode private_key = inl e ->
    let r := request method path query (Some b) public_key private_key
                     environment w in
    fst r = inl e
    /\ ticks (snd r) = S (ticks w)
    /\ heap (snd r) b = dict_set (heap w b) "nonce" (VStr (next_nonce w)).
Proof.
  intros method path query b public_key private_key environment w e
    Hpk Hnone Hkey r.
  assert (Hnonce : nonce_used (Some b) w = VStr (next_nonce w)).
  { unfold nonce_used. cbn [body_on_entry]. now rewrite Hnone. }
  pose proof (request_outcome_cases method path query (Some b) public_key
                private_key environment w Hpk) as Hcases.
  rewrite Hnonce, Hkey in Hcases. fold r in Hcases.
  destruct (request_authenticated_world method path query (Some b)
              public_key private_key environment w Hpk) as [rest Hw].
  fold r in Hw. split; [exact Hcases|]. rewrite Hw.
  unfold nonce_world, next_nonce. cbn [body_on_entry enter_body body_ref].
  rewrite Hnone. cbn [say ticks heap]. now rewrite update_same.
Qed.

Lemma request_failure_keeps_nonce_witness :
  let w := asset_world_sample in
  let r := request "POST" "/0/private/Balance" None (Some 0%nat) "public"
                   "YQ" "https://api.kraken.com" w in
  fst r = inl BinasciiError
  /\ ticks (snd r) = S (ticks w)
  /\ heap (snd r) 0%nat
     = dict_set (heap w 0%nat) "nonce" (VStr (next_nonce w)).
Proof.
  intros w r.
  apply (request_failure_keeps_nonce "POST" "/0/private/Balance" None 0%nat
           "public" "YQ" "https://api.kraken.com" w BinasciiError).
  - reflexivity.
  - reflexivity.
  - vm_compute. reflexivity.
Defined.

(** ** What a request prints *)




(** ** The boundary between nonce and payload *)

Lemma append_assoc (a b c : string) : (a ++ b) ++ c = a ++ (b ++ c).
Proof. induction a as [|x a IH]; simpl; [reflexivity | now rewrite IH]. Qed.

(** X7. The nonce and the payload are joined with nothing between them,
    so the signature does not tell where one ends: characters moved
    from the front of the payload to the end of the nonce leave the
    result of [get_signature] as it was. *)
Theorem get_signature_concatenation :
  forall (private_key nonce moved data path : string) (w1 w2 : world),
    fst (get_signature private_key (moved ++ data) (VStr nonce) path w1)
    = fst (get_signature private_key data (VStr (nonce ++ moved)) path w2).
Proof.
  intros private_key nonce moved data path w1 w2.
  rewrite !get_signature_run. cbv zeta. unfold signing_message.
  rewrite append_assoc.
  now destruct (sign_result _ _).
Qed.

(** ** Empty dictionaries *)

Lemma query_empty (environment path : string) (q : ref) (w : world) :
  heap w q = [] ->
  query_string (Some q) w = query_string None w
  /\ request_url environment path (Some q) w
     = request_url environment path None w.
Proof.
  intros Hq. unfold query_string, request_url. now rewrite Hq.
Qed.

(** X8. An empty query dictionary is no query: the request is the one
    made with [None], with no question mark in the URL. Without a public
    key, an empty body dictionary is no body either. *)
Theorem request_empty_dictionaries :
  forall (method path : string) (query body : option ref)
         (public_key private_key environment : string) (w : world),
    (forall q, heap w q = [] ->
       request method path (Some q) body public_key private_key
               environment w
       = request method path None body public_key private_key
                 environment w)
    /\ (forall b, heap w b = [] ->
          request method path query (Some b) EmptyString private_key
                  environment w
          = request method path query None EmptyString private_key
                    environment w).
Proof.
  intros method path query body public_key private_key environment w.
  split.
  - intros q Hq. destruct (query_empty environment path q w Hq) as [Hs Hu].
    destruct (0 <? str_len public_key) eqn:Hpk.
    + apply Z.ltb_lt in Hpk.
      rewrite !request_authenticated by exact Hpk. cbv zeta.
      now rewrite Hs, Hu.
    + rewrite (str_len_zero _ Hpk), !request_unauthenticated.
      now rewrite Hs, Hu.
  - intros b Hb. rewrite !request_unauthenticated.
    unfold body_string, body_present. now rewrite Hb.
Qed.

Lemma request_empty_dictionaries_witness :
  let w := sample_world 0 1 in
  heap w 0%nat = []
  /\ request "GET" "/0/public/Time" (Some 0%nat) None EmptyString
             EmptyString "https://api.kraken.com" w
     = request "GET" "/0/public/Time" None None EmptyString EmptyString
               "https://api.kraken.com" w
  /\ request "GET" "/0/public/Time" None (Some 0%nat) EmptyString
             EmptyString "https://api.kraken.com" w
     = request "GET" "/0/public/Time" None None EmptyString EmptyString
               "https://api.kraken.com" w.
Proof.
  intros w.
  assert (H0 : heap w 0%nat = []) by reflexivity.
  split; [exact H0|]. split.
  - exact (proj1 (request_empty_dictionaries "GET" "/0/public/Time" None None
                    EmptyString EmptyString "https://api.kraken.com" w)
             0%nat H0).
  - exact (proj2 (request_empty_dictionaries "GET" "/0/public/Time" None None
                    EmptyString EmptyString "https://api.kraken.com" w)
             0%nat H0).
Defined.

(** ** The nonce as a number of milliseconds *)



(** ** The call of [main] *)

(** X10. Whatever the clock reads, the request [main] makes passes
    signing: it goes out as a POST to
    [https://api.kraken.com/0/private/Balance] whose body is the JSON
    object with the single field [nonce], the milliseconds of the
    reading as a string, under the three headers, with the signature of
    that body under the key written in [main]. *)
Theorem main_request_sent :
  forall w : world,
    let body_str := json_dumps [("nonce", VStr (next_nonce w))] in
    fst (main_request w)
    = inr (mkRequest "POST" "https://api.kraken.com/0/private/Balance"
             (encode body_str)
             (signed_headers
                "9UA5+IEHP68a8i7pwRRiahubuj14J/LIfs05vhupHyFbT7GWyFs9gXr1"
                (decode (b64encode (hmac_sha512 (decoded_key main_private_key)
                   (encode "/0/private/Balance"
                    ++ sha256 (encode (next_nonce w ++ body_str)))%list))))).
Proof.
  intros w body_str. unfold main_request.
  assert (Hkey : b64decode main_private_key
                 = inr (decoded_key main_private_key))
    by (vm_compute; reflexivity).
  rewrite (request_signed "POST" "/0/private/Balance" None None
             "9UA5+IEHP68a8i7pwRRiahubuj14J/LIfs05vhupHyFbT7GWyFs9gXr1"
             main_private_key "https://api.kraken.com" w (next_nonce w)
             (decoded_key main_private_key)
             ltac:(reflexivity) ltac:(reflexivity) Hkey).
  cbv zeta. cbn [fst]. unfold nonce_world.
  cbn [body_on_entry enter_body body_ref].
  change (dict_get [] "nonce") with VNone. cbn [heap].
  rewrite update_same. reflexivity.
Qed.

(** ** Private keys the signer accepts, and those it does not *)

Lemma chars_append (s1 s2 : string) :
  list_ascii_of_string (s1 ++ s2)
  = (list_ascii_of_string s1 ++ list_ascii_of_string s2)%list.
Proof. induction s1 as [|c s1 IH]; simpl; [reflexivity | now rewrite IH]. Qed.

Lemma is_foreign_skipped (c : ascii) :
  is_foreign c = true ->
  (code c <? 128) = true
  /\ is_pad (byte_of_ascii c) = false
  /\ b64value (byte_of_ascii c) = None.
Proof.
  unfold is_foreign, b64_alpha, b64_pad. intros H.
  apply andb_true_iff in H. destruct H as [H Hp].
  apply andb_true_iff in H. destruct H as [Ha Hv].
  apply negb_true_iff in Hp, Hv.
  destruct (b64value (byte_of_ascii c)); [discriminate Hv | now repeat split].
Qed.

(** The decoder steps over a character that is neither data nor [=]. *)
Lemma a2b_loop_skip (c : byte) (l1 l2 : bytes) :
  is_pad c = false -> b64value c = None ->
  forall (quad_pos : nat) (leftchar : Z) (pads : nat) (out : bytes),
    a2b_loop (l1 ++ c :: l2)%list quad_pos leftchar pads out
    = a2b_loop (l1 ++ l2)%list quad_pos leftchar pads out.
Proof.
  intros Hp Hv. induction l1 as [|x l1 IH]; intros quad_pos leftchar pads out.
  - cbn [app a2b_loop]. now rewrite Hp, Hv.
  - cbn [app a2b_loop].
    destruct (is_pad x).
    + destruct (2 <=? quad_pos)%nat; [|apply IH].
      destruct (4 <=? quad_pos + (pads + 1))%nat; [reflexivity | apply IH].
    + destruct (b64value x); [|apply IH].
      destruct quad_pos as [|[|[|q]]]; apply IH.
Qed.

Lemma b64decode_skip (s1 s2 : string) (c : ascii) :
  is_foreign c = true ->
  b64decode (s1 ++ String c s2) = b64decode (s1 ++ s2).
Proof.
  intros Hc. destruct (is_foreign_skipped c Hc) as [Hascii [Hp Hv]].
  unfold b64decode, encode_ascii, a2b_base64.
  rewrite !chars_append. cbn [list_ascii_of_string].
  rewrite !forallb_app. cbn [forallb]. rewrite Hascii. cbn [andb].
  destruct (forallb _ (list_ascii_of_string s1)
            && forallb _ (list_ascii_of_string s2)); [|reflexivity].
  rewrite !map_app. cbn [map]. now apply a2b_loop_skip.
Qed.

(** X11. A space, a line end or any other ASCII character that is
    neither in the base64 alphabet nor [=] may stand anywhere in the
    private key: [sign] gives what it gives without it. *)
Theorem sign_skips_foreign_characters :
  forall (before after : string) (c : ascii) (message : bytes) (w : world),
    is_foreign c = true ->
    sign (before ++ String c after) message w
    = sign (before ++ after) message w.
Proof.
  intros before after c message w Hc.
  rewrite !sign_run. unfold sign_result.
  now rewrite (b64decode_skip before after c Hc).
Qed.

(** The key of [main] followed by a line end. *)
Lemma sign_skips_foreign_characters_witness :
  is_foreign (chr 10) = true
  /\ sign (main_private_key ++ String (chr 10) EmptyString)
          (encode "/0/private/Balance") (sample_world 0 1)
     = sign (main_private_key ++ EmptyString)
            (encode "/0/private/Balance") (sample_world 0 1).
Proof.
  assert (Hc : is_foreign (chr 10) = true) by (vm_compute; reflexivity).
  split; [exact Hc|].
  exact (sign_skips_foreign_characters main_private_key EmptyString (chr 10)
           (encode "/0/private/Balance") (sample_world 0 1) Hc).
Defined.

Lemma a2b_loop_no_data (cs : list ascii) :
  forallb no_data cs = true ->
  forall (leftchar : Z) (pads : nat) (out : bytes),
    a2b_loop (map byte_of_ascii cs) 0 leftchar pads out = inr (rev out).
Proof.
  induction cs as [|c cs IH]; intros Hall leftchar pads out;
    [reflexivity|].
  cbn [forallb] in Hall. apply andb_true_iff in Hall.
  destruct Hall as [Hc Hall]. unfold no_data, b64_alpha in Hc.
  apply andb_true_iff in Hc. destruct Hc as [_ Hv].
  apply negb_true_iff in Hv.
  cbn [map a2b_loop].
  destruct (is_pad (byte_of_ascii c)).
  - cbn [Nat.leb]. now apply IH.
  - destruct (b64value (byte_of_ascii c)); [discriminate Hv | now apply IH].
Qed.

Lemma sign_without_key_data_run
    (private_key : string) (message : bytes) (w : world) :
  forallb no_data (list_ascii_of_string private_key) = true ->
  sign private_key message w
  = (inr (decode (b64encode (hmac_digest sha512 128 [] message))), w).
Proof.
  intros Hall.
  rewrite sign_run. unfold sign_result, b64decode, encode_ascii, a2b_base64.
  assert (Hascii : forallb (fun c => code c <? 128)
                     (list_ascii_of_string private_key) = true).
  { rewrite forallb_forall in Hall |- *. intros c Hc.
    specialize (Hall c Hc). unfold no_data in Hall.
    now apply andb_true_iff in Hall. }
  rewrite Hascii, (a2b_loop_no_data _ Hall). reflexivity.
Qed.

(** X12. A private key with no character of the base64 alphabet in it
    (the empty string, which is the default of [request], or only [=],
    spaces and the like) is not an error: [sign] signs with the empty
    key. *)
Theorem sign_without_key_data :
  forall (private_key : string) (message : bytes) (w : world),
    forallb no_data (list_ascii_of_string private_key) = true ->
    sign private_key message w
    = (inr (decode (b64encode (hmac_digest sha512 128 [] message))), w).
Proof.
  intros private_key message w Hall.
  now apply sign_without_key_data_run.
Qed.

Lemma sign_without_key_data_witness :
  sign EmptyString (encode "/0/private/Balance") (sample_world 0 1)
  = (inr (decode (b64encode (hmac_digest sha512 128 []
                               (encode "/0/private/Balance")))),
     sample_world 0 1).
Proof.
  apply (sign_without_key_data EmptyString (encode "/0/private/Balance")
           (sample_world 0 1)).
  reflexivity.
Defined.

(** The decoder on characters of the alphabet only: it ends well exactly
    at the end of a group of four. *)
Lemma a2b_loop_alpha_only (cs : list ascii) :
  forallb b64_alpha cs = true ->
  forall (quad_pos : nat) (leftchar : Z) (pads : nat) (out : bytes),
    (quad_pos < 4)%nat ->
    if (((quad_pos + List.length cs) mod 4) =? 0)%nat
    then exists key,
           a2b_loop (map byte_of_ascii cs) quad_pos leftchar pads out = inr key
    else a2b_loop (map byte_of_ascii cs) quad_pos leftchar pads out
         = inl BinasciiError.
Proof.
  induction cs as [|c cs IH]; intros Hall quad_pos leftchar pads out Hq.
  - cbn [List.length map a2b_loop]. rewrite Nat.add_0_r.
    rewrite (Nat.mod_small _ _ Hq).
    destruct (quad_pos =? 0)%nat; [now exists (rev out) | reflexivity].
  - cbn [forallb] in Hall. apply andb_true_iff in Hall.
    destruct Hall as [Hc Hall]. cbn [map List.length].
    destruct (a2b_loop_alpha c (map byte_of_ascii cs) quad_pos leftchar pads
                out Hc) as [v ->].
    destruct quad_pos as [|[|[|[|q]]]]; try lia.
    + replace ((0 + S (List.length cs)) mod 4)%nat
        with ((1 + List.length cs) mod 4)%nat by (f_equal; lia).
      apply IH; [exact Hall | lia].
    + replace ((1 + S (List.length cs)) mod 4)%nat
        with ((2 + List.length cs) mod 4)%nat by (f_equal; lia).
      apply IH; [exact Hall | lia].
    + replace ((2 + S (List.length cs)) mod 4)%nat
        with ((3 + List.length cs) mod 4)%nat by (f_equal; lia).
      apply IH; [exact Hall | lia].
    + replace ((3 + S (List.length cs)) mod 4)%nat
        with ((0 + List.length cs) mod 4)%nat.
      * apply IH; [exact Hall | lia].
      * replace (3 + S (List.length cs))%nat
          with (List.length cs + 1 * 4)%nat by lia.
        now rewrite Nat.Div0.mod_add.
Qed.

(** X13. A private key written with characters of the base64 alphabet
    only, without padding, is accepted exactly when its length is a
    multiple of four; otherwise [sign] raises [binascii.Error]. *)
Theorem sign_unpadded_key :
  forall (private_key : string) (message : bytes) (w : world),
    forallb b64_alpha (list_ascii_of_string private_key) = true ->
    (str_len private_key mod 4 = 0 ->
       exists signature, sign private_key message w = (inr signature, w))
    /\ (str_len private_key mod 4 <> 0 ->
          sign private_key message w = (inl BinasciiError, w)).
Proof.
  intros private_key message w Hall.
  rewrite sign_run. unfold sign_result, b64decode, encode_ascii, a2b_base64.
  assert (Hascii : forallb (fun c => code c <? 128)
                     (list_ascii_of_string private_key) = true).
  { rewrite forallb_forall in Hall |- *. intros c Hc.
    exact (b64_alpha_ascii c (Hall c Hc)). }
  rewrite Hascii.
  pose proof (a2b_loop_alpha_only _ Hall 0%nat 0 0%nat []
                ltac:(lia)) as Hloop.
  cbn [Nat.add] in Hloop.
  assert (Hlen : str_len private_key
                 = Z.of_nat (List.length (list_ascii_of_string private_key))).
  { unfold str_len. f_equal. clear.
    induction private_key as [|c s IH]; simpl; [reflexivity | now rewrite IH]. }
  rewrite Hlen.
  destruct (Nat.eqb_spec
              (List.length (list_ascii_of_string private_key) mod 4) 0)
    as [Hm | Hm].
  - destruct Hloop as [key Hkey]. rewrite Hkey. split.
    + intros _. eexists. reflexivity.
    + intros Hz. exfalso. apply Hz.
      change 4 with (Z.of_nat 4). rewrite <- Nat2Z.inj_mod. now rewrite Hm.
  - rewrite Hloop. split.
    + intros Hz. exfalso. apply Hm.
      change 4 with (Z.of_nat 4) in Hz. rewrite <- Nat2Z.inj_mod in Hz. lia.
    + intros _. reflexivity.
Qed.

Lemma sign_unpadded_key_witness :
  (exists signature,
     sign "YWJj" (encode "/0/private/Balance") (sample_world 0 1)
     = (inr signature, sample_world 0 1))
  /\ sign "YWJ" (encode "/0/private/Balance") (sample_world 0 1)
     = (inl BinasciiError, sample_world 0 1).
Proof.
  split.
  - apply (proj1 (sign_unpadded_key "YWJj" (encode "/0/private/Balance")
                    (sample_world 0 1) ltac:(vm_compute; reflexivity))).
    reflexivity.
  - apply (proj2 (sign_unpadded_key "YWJ" (encode "/0/private/Balance")
                    (sample_world 0 1) ltac:(vm_compute; reflexivity))).
    discriminate.
Defined.

(** X14. A private key with a character beyond ASCII in it, wherever it
    stands, makes [sign] raise [ValueError]. *)
Theorem sign_non_ascii_key :
  forall (private_key : string) (c : ascii) (message : bytes) (w : world),
    In c (list_ascii_of_string private_key) ->
    128 <= code c ->
    sign private_key message w = (inl ValueError, w).
Proof.
  intros private_key c message w Hin Hc.
  rewrite sign_run. unfold sign_result, b64decode, encode_ascii.
  destruct (forallb (fun c => code c <? 128)
              (list_ascii_of_string private_key)) eqn:Hall; [|reflexivity].
  rewrite forallb_forall in Hall. specialize (Hall c Hin).
  apply Z.ltb_lt in Hall. lia.
Qed.

Lemma sign_non_ascii_key_witness :
  sign (String (chr 233) "YWJj") (encode "/0/private/Balance")
       (sample_world 0 1)
  = (inl ValueError, sample_world 0 1).
Proof.
  apply (sign_non_ascii_key (String (chr 233) "YWJj") (chr 233)).
  - left. reflexivity.
  - vm_compute. discriminate.
Defined.

(** ** The shape of a signature *)



Lemma b64_alpha_b64char (i : Z) :
  0 <= i < 64 -> b64_alpha (ascii_of_byte (b64char i)) = true.
Proof.
  intros Hi. unfold b64_alpha. rewrite byte_of_ascii_of_byte.
  destruct (b64value_b64char i Hi) as [-> _]. reflexivity.
Qed.

(** What [b64encode] writes is strict base64. *)
Lemma valid_quads_b64encode (bs : bytes) :
  valid_quads (map ascii_of_byte (b64encode bs)) = true.
Proof.
  induction bs as [| a | a b | a b c r IH] using list_ind3.
  - reflexivity.
  - pose proof (Z_of_byte_range a) as Ha.
    destruct (regroup (Z_of_byte a) 0 0 Ha ltac:(lia) ltac:(lia))
      as [[H1 [H2 _]] _].
    change (Z.shiftr 0 4) with 0 in *. rewrite Z.lor_0_r in *.
    unfold b64encode. cbn [map valid_quads]. cbv zeta.
    rewrite (b64_alpha_b64char _ H1), (b64_alpha_b64char _ H2).
    cbn [andb]. apply orb_true_iff. right. reflexivity.
  - pose proof (Z_of_byte_range a) as Ha.
    pose proof (Z_of_byte_range b) as Hb.
    destruct (regroup (Z_of_byte a) (Z_of_byte b) 0 Ha Hb ltac:(lia))
      as [[H1 [H2 [H3 _]]] _].
    change (Z.shiftr 0 6) with 0 in *. rewrite Z.lor_0_r in *.
    unfold b64encode. cbn [map valid_quads]. cbv zeta.
    rewrite (b64_alpha_b64char _ H1), (b64_alpha_b64char _ H2),
      (b64_alpha_b64char _ H3).
    cbn [andb]. apply orb_true_iff. left. apply orb_true_iff. right.
    reflexivity.
  - pose proof (Z_of_byte_range a) as Ha.
    pose proof (Z_of_byte_range b) as Hb.
    pose proof (Z_of_byte_range c) as Hc.
    destruct (regroup (Z_of_byte a) (Z_of_byte b) (Z_of_byte c) Ha Hb Hc)
      as [[H1 [H2 [H3 H4]]] _].
    change (b64encode (a :: b :: c :: r))
      with (b64char (Z.shiftr (Z_of_byte a) 2)
            :: b64char (Z.lor (Z.shiftl (Z.land (Z_of_byte a) 3) 4)
                              (Z.shiftr (Z_of_byte b) 4))
            :: b64char (Z.lor (Z.shiftl (Z.land (Z_of_byte b) 15) 2)
                              (Z.shiftr (Z_of_byte c) 6))
            :: b64char (Z.land (Z_of_byte c) 63) :: b64encode r).
    cbn [map].
    destruct (map ascii_of_byte (b64encode r)) as [|x rest] eqn:Hrest.
    + cbn [valid_quads].
      now rewrite (b64_alpha_b64char _ H1), (b64_alpha_b64char _ H2),
        (b64_alpha_b64char _ H3), (b64_alpha_b64char _ H4).
    + change (valid_quads (?c1 :: ?c2 :: ?c3 :: ?c4 :: x :: rest))
        with (b64_alpha c1 && b64_alpha c2 && b64_alpha c3 && b64_alpha c4
              && valid_quads (x :: rest)).
      now rewrite (b64_alpha_b64char _ H1), (b64_alpha_b64char _ H2),
        (b64_alpha_b64char _ H3), (b64_alpha_b64char _ H4), IH.
Qed.



(** ** The data that is sent is printable ASCII *)

Lemma printable_append (s1 s2 : string) :
  printable_str (s1 ++ s2) = printable_str s1 && printable_str s2.
Proof. unfold printable_str. now rewrite chars_append, forallb_app. Qed.

Lemma printable_concat (sep : string) (l : list string) :
  printable_str sep = true ->
  forallb printable_str l = true ->
  printable_str (concat sep l) = true.
Proof.
  intros Hsep. induction l as [|x [|y l] IH]; intros Hl.
  - reflexivity.
  - cbn [forallb] in Hl. apply andb_true_iff in Hl. now destruct Hl.
  - cbn [forallb] in Hl. apply andb_true_iff in Hl. destruct Hl as [Hx Hl].
    change (concat sep (x :: y :: l)) with (x ++ sep ++ concat sep (y :: l)).
    rewrite !printable_append, Hx, Hsep, (IH Hl). reflexivity.
Qed.

Lemma printable_uint (d : Decimal.uint) :
  printable_str (NilEmpty.string_of_uint d) = true.
Proof. induction d; simpl; try reflexivity; exact IHd. Qed.

Lemma printable_str_of_int (z : Z) : printable_str (str_of_int z) = true.
Proof.
  unfold str_of_int, NilZero.string_of_int, NilZero.string_of_uint.
  destruct (Z.to_int z) as [d | d]; destruct d; try reflexivity;
    try apply (printable_uint (_ _));
    change (printable_str (String "-" ?s)) with (printable_str s);
    apply (printable_uint (_ _)).
Qed.

Lemma printable_json_escape_char (c : ascii) :
  printable_str (json_escape_char c) = true.
Proof.
  destruct c as [[] [] [] [] [] [] [] []]; vm_compute; reflexivity.
Qed.

Lemma printable_json_string (s : string) : printable_str (json_string s) = true.
Proof.
  unfold json_string. rewrite !printable_append.
  rewrite printable_concat; [reflexivity | reflexivity |].
  apply forallb_forall. intros x Hx. apply in_map_iff in Hx.
  destruct Hx as [c [<- _]]. apply printable_json_escape_char.
Qed.

Lemma printable_json_dumps (d : dict value) :
  printable_str (json_dumps d) = true.
Proof.
  unfold json_dumps. rewrite !printable_append.
  rewrite printable_concat; [reflexivity | reflexivity |].
  apply forallb_forall. intros x Hx. apply in_map_iff in Hx.
  destruct Hx as [[k v] [<- _]]. unfold json_item. cbn [fst snd].
  rewrite !printable_append, printable_json_string.
  destruct v as [| [] | z | t]; try reflexivity.
  - cbn [json_value]. now rewrite printable_str_of_int.
  - cbn [json_value]. now rewrite printable_json_string.
Qed.

(** The UTF-8 bytes of printable ASCII are its characters. *)
Lemma encode_printable (s : string) :
  printable_str s = true ->
  encode s = map byte_of_ascii (list_ascii_of_string s)
  /\ Forall (fun b => 32 <= Z_of_byte b <= 126) (encode s).
Proof.
  unfold printable_str, encode.
  induction (list_ascii_of_string s) as [|c cs IH]; intros Hall.
  - split; [reflexivity | constructor].
  - cbn [forallb] in Hall. apply andb_true_iff in Hall.
    destruct Hall as [Hc Hall]. destruct (IH Hall) as [IH1 IH2].
    unfold printable in Hc. apply andb_true_iff in Hc.
    destruct Hc as [Hlo Hhi]. apply Z.leb_le in Hlo, Hhi.
    assert (Henc : encode_char c = [byte_of_ascii c]).
    { unfold encode_char.
      now replace (code c <? 128) with true
        by (symmetry; apply Z.ltb_lt; lia). }
    cbn [flat_map map]. rewrite Henc. cbn [app]. split.
    + now rewrite IH1.
    + constructor; [rewrite Z_of_byte_of_ascii; lia | exact IH2].
Qed.

(** The data of a request that reaches the transport. *)
Lemma request_data
    (method path : string) (query body : option ref)
    (public_key private_key environment : string) (w w' : world)
    (req : Request) :
  request method path query body public_key private_key environment w
  = (inr req, w') ->
  req_data req = [] \/ exists d, req_data req = encode (json_dumps d).
Proof.
  intros Hrun. destruct (0 <? str_len public_key) eqn:Hpk.
  - apply Z.ltb_lt in Hpk.
    rewrite request_authenticated in Hrun by exact Hpk. cbv zeta in Hrun.
    destruct (get_signature _ _ _ _ _) as [[e|sg] w3]; [discriminate Hrun|].
    injection Hrun as Hreq _. subst req. right. eexists. reflexivity.
  - rewrite (str_len_zero _ Hpk), request_unauthenticated in Hrun.
    injection Hrun as Hreq _. subst req. cbn [req_data].
    unfold body_string. destruct body as [b|]; [|now left].
    destruct (0 <? len (heap w b)); [right; eexists; reflexivity | now left].
Qed.

(** X16. Whatever the body holds (quotes, control characters, letters
    beyond ASCII), every byte of the data a request sends is printable
    ASCII, between the space and the tilde. *)
Theorem request_data_printable :
  forall (method path : string) (query body : option ref)
         (public_key private_key environment : string) (w w' : world)
         (req : Request),
    request method path query body public_key private_key environment w
    = (inr req, w') ->
    Forall (fun b => 32 <= Z_of_byte b <= 126) (req_data req).
Proof.
  intros method path query body public_key private_key environment w w' req
    Hrun.
  destruct (request_data _ _ _ _ _ _ _ _ _ _ Hrun) as [-> | [d ->]].
  - constructor.
  - exact (proj2 (encode_printable _ (printable_json_dumps d))).
Qed.

Lemma request_data_printable_witness :
  let w := world_with [("memo", VStr (String (chr 233) (String (chr 10) "x")))]
                      0 1 in
  exists req w',
    request "POST" "/0/private/Balance" None (Some 0%nat) EmptyString
            EmptyString "https://api.kraken.com" w = (inr req, w')
    /\ Forall (fun b => 32 <= Z_of_byte b <= 126) (req_data req).
Proof.
  intros w.
  pose proof (request_unauthenticated "POST" "/0/private/Balance" None
                (Some 0%nat) EmptyString "https://api.kraken.com" w) as Hrun.
  eexists _, _. split; [exact Hrun|].
  exact (request_data_printable _ _ _ _ _ _ _ _ _ _ Hrun).
Defined.

(** ** Keys written by the encoder *)

(** X17. The base64 text of any sequence of bytes is a private key that
    [sign] accepts, and [sign] then signs with exactly those bytes: the
    decoder undoes the encoder. *)
Theorem sign_key_round_trip :
  forall (key message : bytes) (w : world),
    valid_base64 (decode (b64encode key)) = true
    /\ b64decode (decode (b64encode key)) = inr key
    /\ sign (decode (b64encode key)) message w
       = (inr (decode (b64encode (hmac_digest sha512 128 key message))), w).
Proof.
  intros key message w. split; [|split].
  - unfold valid_base64, decode.
    rewrite list_ascii_of_string_of_list_ascii. apply valid_quads_b64encode.
  - apply b64decode_b64encode.
  - rewrite sign_run. unfold sign_result.
    now rewrite b64decode_b64encode.
Qed.
